(** * TruthGuardAI: the verification pipeline of [app.py]

    A shallow embedding of the text analyzer, the verdict classifier, the
    content extractor, the search layer and the [/verify] handler, with the
    properties of the design document stated and settled against them.

    Conventions.
    - A Python [str] is a list of Unicode code points ([pystr]); [len] is
      [length], [s[:n]] is [take n s].
    - A Python [float] is a binary64 value: Rocq's primitive [float], whose
      comparisons are the IEEE ones Python uses.
    - A Python [dict] with string keys is a [gmap string pyval].
    - Code that can raise returns an [outcome]; a [try]/[except Exception]
      block is [try_except].
    - What the Python runtime's Unicode tables and the third-party
      libraries compute (NLTK, TextBlob, BeautifulSoup, requests, SerpAPI,
      the database session) is not part of the repository: it is the
      [Runtime] the pipeline runs against. *)

From Stdlib Require Import Floats.
From stdpp Require Import gmap strings list.

Set Warnings "-inexact-float,-register-all".

(** ** Python strings *)

Module Py.

Definition pystr := list N.

(** An ASCII literal of the source, as code points. *)
Definition lit (s : string) : pystr :=
  (λ a, Ascii.N_of_ascii a) <$> String.list_ascii_of_string s.

(** [str.isspace] on one code point: the characters [str.strip] and
    [str.split] treat as whitespace. *)
Definition isspace (c : N) : bool :=
  ((9 <=? c) && (c <=? 13) || (28 <=? c) && (c <=? 32)
   || (c =? 133) || (c =? 160) || (c =? 5760)
   || (8192 <=? c) && (c <=? 8202)
   || (c =? 8232) || (c =? 8233) || (c =? 8239) || (c =? 8287)
   || (c =? 12288))%N.

Fixpoint lstrip (s : pystr) : pystr :=
  match s with
  | [] => []
  | c :: s' => if isspace c then lstrip s' else s
  end.

Definition rstrip (s : pystr) : pystr := reverse (lstrip (reverse s)).

(** [s.strip()] *)
Definition strip (s : pystr) : pystr := rstrip (lstrip s).

(** [s.split()]: the maximal runs of non-whitespace, in order. [cur] is
    the run being read, most recent character first. *)
Fixpoint split_from (cur : pystr) (s : pystr) : list pystr :=
  match s with
  | [] => match cur with [] => [] | _ => [reverse cur] end
  | c :: s' =>
      if isspace c
      then match cur with
           | [] => split_from [] s'
           | _ => reverse cur :: split_from [] s'
           end
      else split_from (c :: cur) s'
  end.

Definition split (s : pystr) : list pystr := split_from [] s.

(** [s.count(c)] for a one-character [c]. *)
Definition count (c : N) (s : pystr) : nat :=
  length (filter (λ x, x = c) s).

(** [s.replace(a, b)] for one-character [a] and [b]. *)
Definition replace (a b : N) (s : pystr) : pystr :=
  (λ c, if decide (c = a) then b else c) <$> s.

(** [s.startswith(p)] *)
Fixpoint startswith (p s : pystr) : bool :=
  match p, s with
  | [], _ => true
  | _ :: _, [] => false
  | a :: p', b :: s' => bool_decide (a = b) && startswith p' s'
  end.

(** [w in t]: [w] occurs in [t] as a substring. *)
Fixpoint contains (w t : pystr) : bool :=
  startswith w t || match t with [] => false | _ :: t' => contains w t' end.

(** Truthiness of a string: [bool(s)]. *)
Definition truthy (s : pystr) : bool :=
  match s with [] => false | _ => true end.

(** [a or b] on strings. *)
Definition or_else (a b : pystr) : pystr := if truthy a then a else b.

Definition newline : N := 10.
Definition space : N := 32.
Definition bang : N := 33.
Definition qmark : N := 63.
(** The one-character string U+2026, the truncation marker. *)
Definition ellipsis : pystr := [8230%N].

End Py.
Import Py.

(** ** Values, dictionaries, exceptions *)

Inductive pyval :=
  | VNone
  | VInt (n : Z)
  | VFloat (x : float)
  | VStr (s : pystr)
  | VList (l : list pyval).

Abbreviation dict := (gmap string pyval).

(** [v == s] for a string literal [s]. *)
Definition is_str (s : pystr) (v : pyval) : bool :=
  match v with VStr s' => bool_decide (s' = s) | _ => false end.

Inductive exn :=
  | KeyError (key : string)
  | AttributeError
  | ExternalError (what : string).

Inductive outcome (A : Type) :=
  | Ret (a : A)
  | Raise (e : exn).
Arguments Ret {A} a.
Arguments Raise {A} e.

(** ** State, exceptions and logging

    The handler runs against the report table and the application log.
    A computation takes the state and returns a value or a raised exception
    together with the new state. *)

Record report := { rep_text : pystr; rep_label : pyval }.

Inductive log_entry :=
  | LogWarning (msg : string) (e : exn)
  | LogException (msg : string) (e : exn).

Record state := { rows : list report; log : list log_entry }.

Definition M (A : Type) : Type := state → outcome A * state.

Definition run_ret {A} (a : A) : M A := λ st, (Ret a, st).

Definition run_bind {A B} (k : A → M B) (m : M A) : M B :=
  λ st, match m st with
        | (Ret a, st') => k a st'
        | (Raise e, st') => (Raise e, st')
        end.

(** [x ← m; k] and [m;; k] are stdpp's notations for these. *)
#[export] Instance M_ret : MRet M := @run_ret.
#[export] Instance M_bind : MBind M := @run_bind.

Definition raise {A} (e : exn) : M A := λ st, (Raise e, st).

(** An external call: its outcome is given, the state is untouched. *)
Definition call {A} (o : outcome A) : M A := λ st, (o, st).

(** [try: body  except Exception as e: handler e] *)
Definition try_except {A} (body : M A) (handler : exn → M A) : M A :=
  λ st, match body st with
        | (Ret a, st') => (Ret a, st')
        | (Raise e, st') => handler e st'
        end.

Definition logger (entry : log_entry) : M () :=
  λ st, (Ret (), {| rows := rows st; log := log st ++ [entry] |}).

(** ** Pages, search results, requests *)

(** What the handler reads of a parsed page. *)
Record soup := {
  (** [soup.title]: absent, or present with its [.string], which is [None]
      when the element has no single text child. *)
  title_tag : option (option pystr);
  (** [p.get_text(" ", strip=True)] of every [<p>], in document order. *)
  p_texts : list pystr;
  (** [soup.find("meta", attrs={"name": "description"})]: absent, or
      present with its [content] attribute if it has one. *)
  meta_description : option (option pystr);
  (** [soup.find("meta", attrs={"property": "og:description"})] *)
  meta_og_description : option (option pystr)
}.

(** A result block of the scraped page, as the scraper reads it. *)
Record container := {
  (** [g.select_one('h3')] and its [get_text(strip=True)] *)
  h3_text : option pystr;
  (** [g.select_one('a')]: absent, or present with its [href] if it has
      one. *)
  a_href : option (option pystr);
  (** [g.select_one('.VwiC3b') or g.select_one('.IsZvec')] and its
      [get_text(" ", strip=True)] *)
  snippet_text : option pystr
}.

(** The three selections of the scraped page. *)
Record results_page := {
  sel_tF2Cxc : list container;
  sel_g : list container;
  sel_yuRUbf : list container
}.

(** The JSON object of the request: its [url] and [text] members, when
    present. *)
Record payload := { p_url : option pystr; p_text : option pystr }.

Inductive response :=
  | Verified (analysis : dict) (search_results : list dict)   (* 200 *)
  | NoInput                                                   (* 400 *)
  | InternalError (detail : exn).                             (* 500 *)

(** ** The runtime

    The Unicode tables of the interpreter, the NLP libraries, the network
    and the database, as the pipeline sees them. A call that can raise
    answers with an [option] or an [outcome]. *)

Class Runtime := {
  (** [t.isalpha()], [t.isupper()], [t.lower()] *)
  str_isalpha : pystr → bool;
  str_isupper : pystr → bool;
  str_lower : pystr → pystr;
  (** [round(x, 4)] *)
  round4 : float → float;
  (** [word_tokenize(text)], [stopwords.words("english")] and
      [TextBlob(text).sentiment.polarity]; [None] when the call raises. *)
  word_tokenize : pystr → option (list pystr);
  stopwords_english : option (list pystr);
  textblob_polarity : pystr → option float;
  (** [requests.get], [raise_for_status] and the parse of the page. *)
  fetch : pystr → outcome soup;
  (** [urlparse(url).netloc] *)
  netloc : pystr → outcome pystr;
  SERPAPI_KEY : pystr;
  (** [GoogleSearch({...}).get_dict()], then [.get("organic_results")]:
      the search raises, or answers without the key, or with the list. *)
  serpapi_organic_results : pystr → nat → outcome (option (list dict));
  (** The GET of the result page for a query and [num], parsed. *)
  fetch_results_page : pystr → nat → outcome results_page;
  (** The database session: [Some e] when adding and committing the row to
      the table raises [e]; otherwise the row is appended. *)
  db_failure : list report → report → option exn
}.

Section Pipeline.

Context {rt : Runtime}.

(** ** The verdict classifier ([analyze_text], the [if]/[elif]/[else] on
    [total_indicators] and [polarity]) *)

Definition fake : pystr := lit "fake".
Definition suspicious : pystr := lit "suspicious".
Definition real : pystr := lit "real".
Definition uncertain : pystr := lit "uncertain".

Definition classify (total_indicators : nat) (polarity : float) : pystr :=
  if (3 <=? total_indicators) || (polarity <? -0.25)%float || (0.5 <? polarity)%float
  then fake
  else if (1 <=? total_indicators) || (0.15 <? abs polarity)%float
  then suspicious
  else real.

(** ** The lexical analyzer ([analyze_text]) *)

Definition sensational_words : list pystr :=
  lit <$>
  [ "click"; "shocking"; "unbelievable"; "hate"; "secret"; "miracle"; "cure";
    "conspiracy"; "pharma"; "believe"; "weird"; "trick"; "scientists"; "baffled";
    "hidden"; "truth"; "wake"; "sheeple"; "fake"; "hoax"; "breaking"; "news";
    "urgent"; "alert"; "warning"; "scandal"; "exposed"; "leaked"; "bombshell";
    "revolutionary"; "guaranteed"; "limited"; "act"; "free"; "money"; "cancer";
    "theory"; "deep"; "state"; "alternative"; "facts"; "zombie"; "apocalypse" ]%string.

(** The result returned for text too short to analyze. *)
Definition degenerate : dict :=
  {[ "tokens" := VList []; "sentiment" := VFloat 0.0;
     "label" := VStr uncertain; "preview" := VStr [] ]}.

(** The first [try]/[except]: NLTK tokens without stopwords, or, when
    either NLTK call raises, the whitespace split with no stopword
    removal. (The part-of-speech pass that follows discards its result and
    its failure, and is left out.) *)
Definition tokenize (text : pystr) : list pystr :=
  match word_tokenize text, stopwords_english with
  | Some words, Some stop =>
      filter (λ t, t ∉ stop) (str_lower <$> filter (λ t, str_isalpha t = true) words)
  | _, _ => str_lower <$> filter (λ t, str_isalpha t = true) (split text)
  end.

Definition polarity_of (text : pystr) : float :=
  match textblob_polarity text with Some p => p | None => 0.0%float end.

Definition indicator_count (tokens : list pystr) : nat :=
  length (filter (λ t, existsb (λ w, contains w t) sensational_words = true) tokens).

Definition punct_indicators (text : pystr) : nat :=
  (count bang text + count qmark text) `div` 2.

Definition caps_indicators (text : pystr) : nat :=
  if 1 <? length (filter (λ t, str_isupper t && (3 <? length t) = true) (split text))
  then 1 else 0.

Definition total_indicators (text : pystr) : nat :=
  indicator_count (tokenize text) + punct_indicators text + caps_indicators text.

Definition preview_of (text : pystr) : pystr :=
  replace newline space (take 300 (strip text))
  ++ (if 300 <? length (strip text) then ellipsis else []).

Definition analyze_text (text : pystr) : dict :=
  if negb (truthy text) || (length (strip text) <? 10)
  then degenerate
  else
    let tokens := tokenize text in
    let polarity := polarity_of text in
    let total := total_indicators text in
    let label := classify total polarity in
    {[ "tokens" := VList (VStr <$> take 20 tokens);
       "sentiment" := VFloat (round4 polarity);
       "label" := VStr label;
       "preview" := VStr (preview_of text);
       "indicators" := VInt (Z.of_nat total) ]}.

(** ** Content extraction ([extract_text_from_url]) *)

(** [" ".join(l)] *)
Fixpoint join_space (l : list pystr) : pystr :=
  match l with
  | [] => []
  | [s] => s
  | s :: l' => s ++ space :: join_space l'
  end.

Definition max_paragraphs : nat := 15.

Definition extract_text_from_url (url : pystr) : M (pystr * pystr) :=
  try_except
    (page ← call (fetch url);
     title ← match title_tag page with
             | Some (Some s) => mret (strip s)
             | Some None => raise AttributeError
             | None => mret url
             end;
     let paragraphs := take max_paragraphs (p_texts page) in
     let content := or_else (join_space paragraphs) title in
     let content :=
       if negb (truthy content)
       (* [find(name) or find(property)]: the first of the two found *)
       then match meta_description page ∪ meta_og_description page with
            | Some meta => default [] meta
            | None => title
            end
       else content in
     mret (title, content))
    (λ e, logger (LogWarning "extract_text_from_url error" e);; mret (url, url)).

(** ** Search ([google_search_serpapi], [google_search_scrape],
    [google_search]) *)

(** [d.get(k)]: the value, or [None]. *)
Definition get (k : string) (d : dict) : pyval := default VNone (d !! k).

(** [a or b] on lists. *)
Definition list_or {A} (a b : list A) : list A :=
  match a with [] => b | _ => a end.

(** An optional string as a value: [None] or the string. *)
Definition of_opt (o : option pystr) : pyval :=
  match o with Some s => VStr s | None => VNone end.

Definition opt_truthy (o : option pystr) : bool :=
  match o with Some s => truthy s | None => false end.

(** The snippet of a result is a string. *)
Definition snippet_is_str (d : dict) : Prop := ∃ s, d !! "snippet" = Some (VStr s).

Definition google_search_serpapi (query : pystr) (num : nat) : M (list dict) :=
  if negb (truthy SERPAPI_KEY) then mret []
  else
    try_except
      (organic ← call (serpapi_organic_results query num);
       mret ((λ it : dict,
                ({[ "title" := get "title" it; "url" := get "link" it;
                    "snippet" := get "snippet" it ]} : dict))
             <$> take num (default [] organic)))
      (λ e, logger (LogWarning "google_search_serpapi error" e);; mret []).

(** One turn of the loop over the containers: the results so far, or
    [KeyError] when the anchor has no [href]. *)
Definition scrape_container (g : container) (results : list dict) : outcome (list dict) :=
  let title := h3_text g in
  match a_href g with
  | Some None => Raise (KeyError "href")
  | link_el =>
      let link := link_el ≫= id in
      let snippet := default [] (snippet_text g) in
      if opt_truthy title || opt_truthy link
      then Ret (results ++
                [ {[ "title" := of_opt (if opt_truthy title then title else link);
                     "url" := of_opt link;
                     "snippet" := VStr snippet ]} ])
      else Ret results
  end.

Fixpoint scrape_loop (gs : list container) (results : list dict) : outcome (list dict) :=
  match gs with
  | [] => Ret results
  | g :: gs' =>
      match scrape_container g results with
      | Ret results' => scrape_loop gs' results'
      | Raise e => Raise e
      end
  end.

Definition google_search_scrape (query : pystr) (num : nat) : M (list dict) :=
  try_except
    (page ← call (fetch_results_page query num);
     let containers := list_or (sel_tF2Cxc page) (list_or (sel_g page) (sel_yuRUbf page)) in
     call (scrape_loop (take num containers) []))
    (λ e, logger (LogWarning "google_search_scrape error" e);; mret []).

Definition google_search (query : pystr) (num : nat) : M (list dict) :=
  results ← google_search_serpapi query num;
  match results with
  | [] => google_search_scrape query num
  | _ => mret results
  end.

(** ** The corroboration adjustment ([verify], the block under
    "Adjust label if few corroborations") *)

(** [d[k]] *)
Definition getitem (k : string) (d : dict) : outcome pyval :=
  match d !! k with Some v => Ret v | None => Raise (KeyError k) end.

Definition corroborate (search_results : list dict) (analysis : dict) : outcome dict :=
  if length search_results <? 3
  then match getitem "label" analysis with
       | Raise e => Raise e
       | Ret label =>
           if is_str real label
           then Ret (<["label" := VStr suspicious]> analysis)
           else if is_str uncertain label
           then Ret (<["label" := VStr fake]> analysis)
           else Ret analysis
       end
  else Ret analysis.

(** ** Persistence ([verify], the block under "Save to DB") *)

Definition session_add_commit (rec : report) : M () :=
  λ st, match db_failure (rows st) rec with
        | Some e => (Raise e, st)
        | None => (Ret (), {| rows := rows st ++ [rec]; log := log st |})
        end.

Definition save_report (analysis_text : pystr) (analysis : dict) : M () :=
  try_except
    (label ← call (getitem "label" analysis);
     session_add_commit {| rep_text := take 2000 analysis_text; rep_label := label |})
    (λ e, logger (LogWarning "DB save failed" e)).

(** ** The handler ([prepare_query_from_input], [verify]) *)

Definition http : pystr := lit "http://".
Definition https : pystr := lit "https://".

Definition prepare_query_from_input (raw_input : pystr) : M (pystr * pystr) :=
  let raw_input := strip raw_input in
  if negb (truthy raw_input) then mret ([], [])
  else if startswith http raw_input || startswith https raw_input
  then
    '(title, content) ← extract_text_from_url raw_input;
    domain ← call (netloc raw_input);
    mret (or_else title (or_else domain raw_input),
          or_else content (or_else title raw_input))
  else mret (raw_input, raw_input).

(** [verify] up to the adjusted label: query and text, analysis, search,
    corroboration. *)
Definition analyze_and_search (raw : pystr) : M (pystr * dict * list dict) :=
  '(search_query, analysis_text) ← prepare_query_from_input raw;
  let analysis := analyze_text analysis_text in
  search_results ←
    (if truthy search_query then google_search search_query 6 else mret []);
  analysis ← call (corroborate search_results analysis);
  mret (analysis_text, analysis, search_results).

(** [(data.get("url") or data.get("text") or "").strip()] *)
Definition raw_input (data : payload) : pystr :=
  strip (or_else (default [] (p_url data)) (or_else (default [] (p_text data)) [])).

Definition verify (data : payload) : M response :=
  try_except
    (let raw := raw_input data in
     if negb (truthy raw) then mret NoInput
     else
       '(analysis_text, analysis, search_results) ← analyze_and_search raw;
       save_report analysis_text analysis;;
       mret (Verified analysis search_results))
    (λ e, logger (LogException "verify failed" e);; mret (InternalError e)).

End Pipeline.

(** ** Configuration (the [DATABASE_URL] block at the head of [app.py]) *)

(** [s.replace(old, new, 1)]: the leftmost occurrence of [old] replaced. *)
Fixpoint replace_first (old new s : pystr) : pystr :=
  if startswith old s then new ++ drop (length old) s
  else match s with
       | [] => []
       | c :: s' => c :: replace_first old new s'
       end.

Definition postgres_scheme : pystr := lit "postgres://".
Definition postgresql_scheme : pystr := lit "postgresql://".
Definition sqlite_uri : pystr := lit "sqlite:///truthguard.db".

(** [app.config['SQLALCHEMY_DATABASE_URI']], from
    [os.environ.get('DATABASE_URL')]. *)
Definition database_uri (database_url : option pystr) : pystr :=
  match database_url with
  | Some url =>
      if truthy url
      then if startswith postgres_scheme url
           then replace_first postgres_scheme postgresql_scheme url
           else url
      else sqlite_uri
  | None => sqlite_uri
  end.

(** ** Statistics ([stats]) *)

Inductive stats_response :=
  | Stats (body : dict)   (* 200 *)
  | StatsFailed.          (* 500 *)

(** [query(func.count(id)).filter(label == l).scalar()] over the table. *)
Definition count_label (l : pystr) (table : list report) : nat :=
  length (filter (λ r, is_str l (rep_label r) = true) table).

(** A query of the table: it raises [e] when the session does
    ([db_error = Some e]), and reads the rows otherwise. The four counts of
    [stats] are taken of one table: no row is written between them. *)
Definition read_table (db_error : option exn) : M (list report) :=
  λ st, match db_error with
        | Some e => (Raise e, st)
        | None => (Ret (rows st), st)
        end.

Definition stats (db_error : option exn) : M stats_response :=
  try_except
    (table ← read_table db_error;
     let total := length table in
     let real_count := count_label real table in
     let suspicious_count := count_label suspicious table in
     let fake_count := count_label fake table in
     mret (Stats {[ "total_reports" := VInt (Z.of_nat total);
                    "real_count" := VInt (Z.of_nat real_count);
                    "suspicious_count" := VInt (Z.of_nat suspicious_count);
                    "fake_count" := VInt (Z.of_nat fake_count) ]}))
    (λ e, logger (LogException "stats failed" e);; mret StatsFailed).

(** ** Predicates of the statements *)

(** From [st] to [st'] the table is untouched and the log has only grown. *)
Definition logs_only (st st' : state) : Prop :=
  rows st' = rows st ∧ log st `prefix_of` log st'.

(** A result as the scraper builds it: a non-empty title, a snippet, and a
    link that is a string or [None]. *)
Definition scraped_shape (d : dict) : Prop :=
  ∃ title snippet,
    d !! "title" = Some (VStr title) ∧ title ≠ []
    ∧ d !! "snippet" = Some (VStr snippet)
    ∧ (d !! "url" = Some VNone ∨ ∃ url, d !! "url" = Some (VStr url)).

(** The label after the adjustment for [n] search results. *)
Definition adjusted_label (n : nat) (label : pystr) : pystr :=
  if n <? 3
  then if bool_decide (label = real) then suspicious
       else if bool_decide (label = uncertain) then fake
       else label
  else label.

(** The row [verify] stores for a text and a label. *)
Definition report_of (analysis_text : pystr) (label : pyval) : report :=
  {| rep_text := take 2000 analysis_text; rep_label := label |}.

(** ** A runtime to run the model on

    ASCII-only character tables, whitespace tokenization, a neutral
    sentiment scorer, no network and a database that accepts every row. *)

Module Sample.

Definition is_upper (c : N) : bool := ((65 <=? c) && (c <=? 90))%N.
Definition is_lower (c : N) : bool := ((97 <=? c) && (c <=? 122))%N.

Definition offline : Runtime := {|
  str_isalpha := λ t, truthy t && forallb (λ c, is_upper c || is_lower c) t;
  str_isupper := λ t, existsb is_upper t && negb (existsb is_lower t);
  str_lower := λ t, (λ c, if is_upper c then (c + 32)%N else c) <$> t;
  round4 := λ x, x;
  word_tokenize := λ text, Some (split text);
  stopwords_english := Some (lit <$> ["the"; "a"; "by"; "of"; "for"]%string);
  textblob_polarity := λ _, Some 0.0%float;
  fetch := λ _, Raise (ExternalError "requests.get");
  netloc := λ _, Ret [];
  SERPAPI_KEY := lit "key";
  serpapi_organic_results := λ _ _, Ret None;
  fetch_results_page := λ _ _, Raise (ExternalError "requests.get");
  db_failure := λ _ _, None
|}.

Definition neutral_text : pystr :=
  lit "The central bank raised interest rates by 0.25 percent today.".

(** The same, with a database that refuses every row. *)
Definition db_down : Runtime := {|
  str_isalpha := str_isalpha (Runtime := offline);
  str_isupper := str_isupper (Runtime := offline);
  str_lower := str_lower (Runtime := offline);
  round4 := round4 (Runtime := offline);
  word_tokenize := word_tokenize (Runtime := offline);
  stopwords_english := stopwords_english (Runtime := offline);
  textblob_polarity := textblob_polarity (Runtime := offline);
  fetch := fetch (Runtime := offline);
  netloc := netloc (Runtime := offline);
  SERPAPI_KEY := SERPAPI_KEY (Runtime := offline);
  serpapi_organic_results := serpapi_organic_results (Runtime := offline);
  fetch_results_page := fetch_results_page (Runtime := offline);
  db_failure := λ _ _, Some (ExternalError "commit")
|}.

(** The same, with every page fetched being [page]. *)
Definition serving (page : soup) : Runtime := {|
  str_isalpha := str_isalpha (Runtime := offline);
  str_isupper := str_isupper (Runtime := offline);
  str_lower := str_lower (Runtime := offline);
  round4 := round4 (Runtime := offline);
  word_tokenize := word_tokenize (Runtime := offline);
  stopwords_english := stopwords_english (Runtime := offline);
  textblob_polarity := textblob_polarity (Runtime := offline);
  fetch := λ _, Ret page;
  netloc := netloc (Runtime := offline);
  SERPAPI_KEY := SERPAPI_KEY (Runtime := offline);
  serpapi_organic_results := serpapi_organic_results (Runtime := offline);
  fetch_results_page := fetch_results_page (Runtime := offline);
  db_failure := db_failure (Runtime := offline)
|}.

(** The same, with the search API answering [organic] to every query. *)
Definition answering (organic : list dict) : Runtime := {|
  str_isalpha := str_isalpha (Runtime := offline);
  str_isupper := str_isupper (Runtime := offline);
  str_lower := str_lower (Runtime := offline);
  round4 := round4 (Runtime := offline);
  word_tokenize := word_tokenize (Runtime := offline);
  stopwords_english := stopwords_english (Runtime := offline);
  textblob_polarity := textblob_polarity (Runtime := offline);
  fetch := fetch (Runtime := offline);
  netloc := netloc (Runtime := offline);
  SERPAPI_KEY := SERPAPI_KEY (Runtime := offline);
  serpapi_organic_results := λ _ _, Ret (Some organic);
  fetch_results_page := fetch_results_page (Runtime := offline);
  db_failure := db_failure (Runtime := offline)
|}.

(** A page with a title and a meta description and no paragraph. *)
Definition titled_page : soup := {|
  title_tag := Some (Some (lit "Title"));
  p_texts := [];
  meta_description := Some (Some (lit "Description"));
  meta_og_description := None
|}.

(** An organic result of the search API with a title and a link and no
    snippet. *)
Definition bare_result : dict :=
  {[ "title" := VStr (lit "Title"); "link" := VStr (lit "http://example.org/") ]}.

(** An organic result with all three members. *)
Definition full_result : dict :=
  {[ "title" := VStr (lit "Title"); "link" := VStr (lit "http://example.org/");
     "snippet" := VStr (lit "Snippet") ]}.

Definition empty_state : state := {| rows := []; log := [] |}.

Definition neutral_request : payload :=
  {| p_url := None; p_text := Some neutral_text |}.


Definition breaking_text : pystr :=
  lit "BREAKING!!! Scientists SHOCKING secret cure for cancer!!!".

End Sample.

(** Further pages, result pages and runtimes. *)

Module Cases.

(** A page whose title element has nested markup, hence no [.string]. *)
Definition markup_title_page : soup := {|
  title_tag := Some None;
  p_texts := [lit "A paragraph of the page."];
  meta_description := None;
  meta_og_description := None
|}.

(** A titled page with two empty paragraphs. *)
Definition empty_paragraphs_page : soup := {|
  title_tag := Some (Some (lit "Title"));
  p_texts := [[]; []];
  meta_description := Some (Some (lit "Description"));
  meta_og_description := None
|}.

Definition good_block : container := {|
  h3_text := Some (lit "Heading");
  a_href := Some (Some (lit "http://example.org/"));
  snippet_text := None
|}.

(** A result block whose anchor has no [href]. *)
Definition no_href_block : container := {|
  h3_text := Some (lit "Heading");
  a_href := Some None;
  snippet_text := Some (lit "Snippet")
|}.

Definition page_of (blocks : list container) : results_page :=
  {| sel_tF2Cxc := blocks; sel_g := []; sel_yuRUbf := [] |}.

(** [Sample.offline], with the scraped result page being [page]. *)
Definition scraping (page : results_page) : Runtime := {|
  str_isalpha := str_isalpha (Runtime := Sample.offline);
  str_isupper := str_isupper (Runtime := Sample.offline);
  str_lower := str_lower (Runtime := Sample.offline);
  round4 := round4 (Runtime := Sample.offline);
  word_tokenize := word_tokenize (Runtime := Sample.offline);
  stopwords_english := stopwords_english (Runtime := Sample.offline);
  textblob_polarity := textblob_polarity (Runtime := Sample.offline);
  fetch := fetch (Runtime := Sample.offline);
  netloc := netloc (Runtime := Sample.offline);
  SERPAPI_KEY := SERPAPI_KEY (Runtime := Sample.offline);
  serpapi_organic_results := serpapi_organic_results (Runtime := Sample.offline);
  fetch_results_page := λ _ _, Ret page;
  db_failure := db_failure (Runtime := Sample.offline)
|}.

(** [Sample.offline], with [urlparse] rejecting every URL. *)
Definition unparsable : Runtime := {|
  str_isalpha := str_isalpha (Runtime := Sample.offline);
  str_isupper := str_isupper (Runtime := Sample.offline);
  str_lower := str_lower (Runtime := Sample.offline);
  round4 := round4 (Runtime := Sample.offline);
  word_tokenize := word_tokenize (Runtime := Sample.offline);
  stopwords_english := stopwords_english (Runtime := Sample.offline);
  textblob_polarity := textblob_polarity (Runtime := Sample.offline);
  fetch := fetch (Runtime := Sample.offline);
  netloc := λ _, Raise (ExternalError "urlparse");
  SERPAPI_KEY := SERPAPI_KEY (Runtime := Sample.offline);
  serpapi_organic_results := serpapi_organic_results (Runtime := Sample.offline);
  fetch_results_page := fetch_results_page (Runtime := Sample.offline);
  db_failure := db_failure (Runtime := Sample.offline)
|}.

Definition example_url : pystr := lit "http://example.org/".

Definition url_request : payload := {| p_url := Some example_url; p_text := None |}.

Definition short_request : payload :=
  {| p_url := None; p_text := Some (lit " hi there ") |}.

(** A blank [url] beside a usable [text]. *)
Definition blank_url_request : payload :=
  {| p_url := Some (lit "  "); p_text := Some Sample.neutral_text |}.

Definition both_request : payload :=
  {| p_url := Some Sample.neutral_text; p_text := Some Sample.breaking_text |}.

End Cases.

(** * Properties *)

(** ** The verdict classifier *)

Lemma fake_ne_suspicious : fake ≠ suspicious.
Proof. intros H; vm_compute in H; discriminate. Qed.

Lemma fake_ne_real : fake ≠ real.
Proof. intros H; vm_compute in H; discriminate. Qed.

Lemma suspicious_ne_real : suspicious ≠ real.
Proof. intros H; vm_compute in H; discriminate. Qed.

(** The three branches of [classify], by the two guards. *)
Lemma classify_cases (n : nat) (p : float) :
  let g1 := (3 <=? n) || (p <? -0.25)%float || (0.5 <? p)%float in
  let g2 := (1 <=? n) || (0.15 <? abs p)%float in
  classify n p = if g1 then fake else if g2 then suspicious else real.
Proof. reflexivity. Qed.

(** A sentiment with [|p| <= 0.15] passes none of the three sentiment
    tests. The binary64 values compared are read through [Prim2SF]. *)
Lemma within_band (p : float) :
  (abs p <=? 0.15)%float = true →
  (p <? -0.25)%float = false ∧ (0.5 <? p)%float = false
  ∧ (0.15 <? abs p)%float = false.
Proof.
  rewrite leb_spec, !ltb_spec, abs_spec.
  change (Prim2SF 0.15) with (S754_finite false 5404319552844595 (-55)).
  change (Prim2SF (-0.25)) with (S754_finite true 4503599627370496 (-54)).
  change (Prim2SF 0.5) with (S754_finite false 4503599627370496 (-53)).
  destruct (Prim2SF p) as [sg|sg| |sg m e].
  - destruct sg; cbn; intuition congruence.
  - destruct sg; cbn; intuition congruence.
  - cbn; intuition congruence.
  - unfold SFleb, SFltb, SFabs, SFcompare.
    rewrite (Z.compare_antisym e (-55)).
    change (PosDef.Pos.compare_cont Eq 5404319552844595 m)
      with (Pos.compare_cont (CompOpp Eq) 5404319552844595 m).
    rewrite <- (Pos.compare_cont_antisym m 5404319552844595 Eq).
    destruct (Z.compare_spec e (-55)) as [->|He|He]; cbn [CompOpp].
    + destruct (Pos.compare_cont Eq m 5404319552844595), sg; cbn; intuition congruence.
    + assert ((e ?= -54)%Z = Lt) as -> by (apply Z.compare_lt_iff; lia).
      assert ((-53 ?= e)%Z = Gt) as -> by (apply Z.compare_gt_iff; lia).
      destruct sg; cbn; intuition congruence.
    + discriminate.
Qed.

(** C1 (as amended). [classify] returns 'fake' exactly when
    totalIndicators >= 3 or sentiment < -0.25 or sentiment > 0.5, otherwise
    'suspicious' exactly when totalIndicators >= 1 or |sentiment| > 0.15,
    otherwise 'real'. Exactly 3 indicators give 'fake' for every sentiment.
    Every sentiment comparison is strict: with fewer than 3 indicators a
    sentiment of exactly 0.5, -0.25 or 0.25 gives 'suspicious', not 'fake',
    and with no indicator a sentiment of exactly 0.15 or -0.15 gives
    'real'. *)
Theorem classify_strict_order (total_indicators : nat) (sentiment : float) :
  let fake_clause :=
    3 ≤ total_indicators ∨ (sentiment <? -0.25)%float = true
    ∨ (0.5 <? sentiment)%float = true in
  let suspicious_clause :=
    1 ≤ total_indicators ∨ (0.15 <? abs sentiment)%float = true in
  (classify total_indicators sentiment = fake ↔ fake_clause)
  ∧ (classify total_indicators sentiment = suspicious ↔
       ¬ fake_clause ∧ suspicious_clause)
  ∧ (classify total_indicators sentiment = real ↔
       ¬ fake_clause ∧ ¬ suspicious_clause)
  ∧ classify 3 sentiment = fake
  ∧ (total_indicators < 3 → classify total_indicators 0.5 = suspicious)
  ∧ (total_indicators < 3 → classify total_indicators (-0.25) = suspicious)
  ∧ (total_indicators < 3 → classify total_indicators 0.25 = suspicious)
  ∧ classify 0 0.15 = real
  ∧ classify 0 (-0.15) = real.
Proof.
  pose proof fake_ne_suspicious. pose proof fake_ne_real.
  pose proof suspicious_ne_real.
  cbv zeta. rewrite classify_cases. cbv zeta.
  split_and!.
  1-3: destruct (Nat.leb_spec 3 total_indicators);
       destruct (Nat.leb_spec 1 total_indicators);
       destruct (sentiment <? -0.25)%float, (0.5 <? sentiment)%float,
                (0.15 <? abs sentiment)%float;
       cbv beta iota delta [orb]; intuition (try congruence; try lia).
  1,5,6: reflexivity.
  all: intros Hlt; destruct total_indicators as [|[|[|?]]]; [reflexivity.. | lia].
Qed.

(** C1, where the claim fails: a sentiment of exactly 0.5 with no indicator
    is labelled 'suspicious', not 'fake'. *)
Lemma classify_half_not_fake :
  classify 0 0.5 = suspicious ∧ classify 0 0.5 ≠ fake.
Proof. split; [reflexivity | intros H; vm_compute in H; discriminate]. Qed.

(** C4 (as amended). For every sentiment with [|sentiment| <= 0.15], exactly
    2 indicators give 'suspicious'; 'real' is what no indicator gives. *)
Theorem classify_two_indicators_suspicious (sentiment : float) :
  (abs sentiment <=? 0.15)%float = true →
  classify 2 sentiment = suspicious ∧ classify 0 sentiment = real.
Proof.
  intros (H1 & H2 & H3)%within_band.
  rewrite !classify_cases. cbv zeta. rewrite H1, H2, H3. split; reflexivity.
Qed.

Lemma classify_two_indicators_suspicious_witness :
  (abs 0.1 <=? 0.15)%float = true
  ∧ classify 2 0.1 = suspicious ∧ classify 0 0.1 = real.
Proof.
  split; [reflexivity | apply (classify_two_indicators_suspicious 0.1); reflexivity].
Defined.

(** C4, where the claim fails: 2 indicators with sentiment 0 are labelled
    'suspicious', not 'real'. *)
Lemma classify_two_indicators_not_real :
  (abs 0 <=? 0.15)%float = true ∧ classify 2 0 = suspicious ∧ classify 2 0 ≠ real.
Proof.
  split; [reflexivity |].
  split; [reflexivity | intros H; vm_compute in H; discriminate].
Qed.

(** ** The lexical analyzer *)

Lemma strip_nonempty (text : pystr) : 0 < length (strip text) → truthy text = true.
Proof. destruct text; [vm_compute; lia | reflexivity]. Qed.

Lemma analyze_text_short {rt : Runtime} (text : pystr) :
  length (strip text) < 10 → analyze_text text = degenerate.
Proof.
  intros Hlen. unfold analyze_text.
  apply Nat.ltb_lt in Hlen as ->. by rewrite orb_true_r.
Qed.

Lemma analyze_text_long {rt : Runtime} (text : pystr) :
  10 ≤ length (strip text) →
  analyze_text text =
    {[ "tokens" := VList (VStr <$> take 20 (tokenize text));
       "sentiment" := VFloat (round4 (polarity_of text));
       "label" := VStr (classify (total_indicators text) (polarity_of text));
       "preview" := VStr (preview_of text);
       "indicators" := VInt (Z.of_nat (total_indicators text)) ]}.
Proof.
  intros Hlen. unfold analyze_text.
  rewrite strip_nonempty by lia.
  by replace (length (strip text) <? 10) with false by (symmetry; apply Nat.ltb_ge; lia).
Qed.

Lemma classify_range (n : nat) (p : float) :
  classify n p ∈ [real; suspicious; fake; uncertain].
Proof.
  rewrite classify_cases. cbv zeta.
  repeat case_match; set_solver.
Qed.

Lemma length_replace (a b : N) (s : pystr) : length (replace a b s) = length s.
Proof. apply length_fmap. Qed.

Lemma length_preview_of (text : pystr) :
  length (preview_of text) =
  (length (strip text) `min` 300) + (if 300 <? length (strip text) then 1 else 0).
Proof.
  unfold preview_of. rewrite length_app, length_replace, length_take.
  destruct (Nat.ltb_spec 300 (length (strip text)));
    unfold ellipsis; cbn [length]; lia.
Qed.

Example analyze_neutral :
  analyze_text (rt := Sample.offline) Sample.neutral_text !! "label" = Some (VStr real).
Proof. vm_compute. reflexivity. Qed.

Example analyze_breaking :
  analyze_text (rt := Sample.offline) Sample.breaking_text !! "indicators" = Some (VInt 8)
  ∧ analyze_text (rt := Sample.offline) Sample.breaking_text !! "label" = Some (VStr fake).
Proof. vm_compute. split; reflexivity. Qed.

(** C3. Text that is empty or has fewer than 10 characters once trimmed gets
    the degenerate result: no tokens, sentiment 0.0, label 'uncertain', an
    empty preview; and nothing of the libraries enters it (the result is the
    same under every runtime). *)
Theorem analyze_text_degenerate {rt : Runtime} (text : pystr) :
  text = [] ∨ length (strip text) < 10 →
  analyze_text text = degenerate
  ∧ analyze_text text !! "tokens" = Some (VList [])
  ∧ analyze_text text !! "sentiment" = Some (VFloat 0.0)
  ∧ analyze_text text !! "label" = Some (VStr uncertain)
  ∧ analyze_text text !! "preview" = Some (VStr [])
  ∧ ∀ rt' : Runtime, analyze_text (rt := rt') text = analyze_text (rt := rt) text.
Proof.
  intros Hshort.
  assert (length (strip text) < 10) as Hlen.
  { destruct Hshort as [-> | ?]; [vm_compute; lia | done]. }
  rewrite !analyze_text_short by done.
  split_and!; try done.
  intros rt'. by rewrite analyze_text_short.
Qed.

Lemma analyze_text_degenerate_witness :
  (lit "too short" = [] ∨ length (strip (lit "too short")) < 10)
  ∧ analyze_text (rt := Sample.offline) (lit "too short") = degenerate.
Proof.
  assert (lit "too short" = [] ∨ length (strip (lit "too short")) < 10) as Hshort.
  { right. vm_compute. lia. }
  split; [exact Hshort |].
  exact (proj1 (analyze_text_degenerate (rt := Sample.offline) (lit "too short") Hshort)).
Defined.

(** C6. A non-degenerate result carries one of the four labels, at most 20
    tokens, and a preview of at most 301 characters: the first 300
    characters of the trimmed text with newlines replaced by spaces, and the
    one-character marker appended exactly when the trimmed text is longer
    than 300. *)
Theorem analyze_text_bounds {rt : Runtime} (text : pystr) :
  10 ≤ length (strip text) →
  ∃ tokens label preview,
    analyze_text text !! "tokens" = Some (VList (VStr <$> tokens))
    ∧ length tokens ≤ 20
    ∧ analyze_text text !! "label" = Some (VStr label)
    ∧ label ∈ [real; suspicious; fake; uncertain]
    ∧ analyze_text text !! "preview" = Some (VStr preview)
    ∧ preview = replace newline space (take 300 (strip text))
                ++ (if 300 <? length (strip text) then ellipsis else [])
    ∧ length ellipsis = 1
    ∧ length preview =
        (length (strip text) `min` 300) + (if 300 <? length (strip text) then 1 else 0)
    ∧ length preview ≤ 301.
Proof.
  intros Hlen. rewrite analyze_text_long by done.
  exists (take 20 (tokenize text)),
         (classify (total_indicators text) (polarity_of text)), (preview_of text).
  split_and!; try done.
  - rewrite length_take. lia.
  - apply classify_range.
  - apply length_preview_of.
  - rewrite length_preview_of. case_match; lia.
Qed.

Lemma analyze_text_bounds_witness :
  10 ≤ length (strip Sample.neutral_text)
  ∧ ∃ tokens label preview,
      analyze_text (rt := Sample.offline) Sample.neutral_text !! "tokens"
        = Some (VList (VStr <$> tokens))
      ∧ length tokens ≤ 20
      ∧ analyze_text (rt := Sample.offline) Sample.neutral_text !! "label"
        = Some (VStr label)
      ∧ label ∈ [real; suspicious; fake; uncertain]
      ∧ analyze_text (rt := Sample.offline) Sample.neutral_text !! "preview"
        = Some (VStr preview)
      ∧ preview = replace newline space (take 300 (strip Sample.neutral_text))
                  ++ (if 300 <? length (strip Sample.neutral_text) then ellipsis else [])
      ∧ length ellipsis = 1
      ∧ length preview =
          (length (strip Sample.neutral_text) `min` 300)
          + (if 300 <? length (strip Sample.neutral_text) then 1 else 0)
      ∧ length preview ≤ 301.
Proof.
  assert (10 ≤ length (strip Sample.neutral_text)) as Hlen by (vm_compute; lia).
  split; [exact Hlen |].
  exact (analyze_text_bounds (rt := Sample.offline) Sample.neutral_text Hlen).
Defined.

(** ** Running computations *)

Lemma bind_run {A B} (m : M A) (k : A → M B) (st : state) :
  (m ≫= k) st =
  match m st with (Ret a, st') => k a st' | (Raise e, st') => (Raise e, st') end.
Proof. reflexivity. Qed.

Lemma bind_ret_inv {A B} (m : M A) (k : A → M B) (st st' : state) (b : B) :
  (m ≫= k) st = (Ret b, st') →
  ∃ a st1, m st = (Ret a, st1) ∧ k a st1 = (Ret b, st').
Proof. rewrite bind_run. destruct (m st) as [[a|e] st1]; [eauto | done]. Qed.

Lemma call_ret_inv {A} (o : outcome A) (st st' : state) (a : A) :
  call o st = (Ret a, st') → o = Ret a ∧ st' = st.
Proof. unfold call. by intros [= -> ->]. Qed.

(** ** The corroboration adjustment *)

Lemma is_str_spec (s : pystr) (v : pyval) : is_str s v = true ↔ v = VStr s.
Proof.
  destruct v; simpl; try (split; [done | by intros [=]]).
  rewrite bool_decide_eq_true. split; [by intros -> | by intros [= ->]].
Qed.

(** The adjustment, read off the label it finds. *)
Lemma corroborate_by_label (search_results : list dict) (analysis : dict) (label : pystr) :
  analysis !! "label" = Some (VStr label) →
  corroborate search_results analysis =
  Ret (if length search_results <? 3
       then if bool_decide (label = real) then <["label" := VStr suspicious]> analysis
            else if bool_decide (label = uncertain) then <["label" := VStr fake]> analysis
            else analysis
       else analysis).
Proof.
  intros Hl. unfold corroborate, getitem. rewrite Hl. simpl.
  by repeat case_match.
Qed.

Lemma corroborate_dom (search_results : list dict) (analysis analysis' : dict) :
  corroborate search_results analysis = Ret analysis' → dom analysis' = dom analysis.
Proof.
  unfold corroborate, getitem.
  destruct (length search_results <? 3); [|by intros [= <-]].
  destruct (analysis !! "label") as [v|] eqn:Hl; [|done].
  apply elem_of_dom_2, singleton_subseteq_l in Hl.
  destruct (is_str real v); [|destruct (is_str uncertain v)]; intros [= <-];
    rewrite ?dom_insert_L; by try apply subseteq_union_1_L.
Qed.

Lemma corroborate_other_keys (search_results : list dict) (analysis analysis' : dict)
    (k : string) :
  k ≠ "label" →
  corroborate search_results analysis = Ret analysis' → analysis' !! k = analysis !! k.
Proof.
  unfold corroborate, getitem. intros Hk.
  destruct (length search_results <? 3); [|by intros [= <-]].
  destruct (analysis !! "label") as [v|]; [|done].
  destruct (is_str real v); [|destruct (is_str uncertain v)]; intros [= <-];
    by rewrite ?lookup_insert_ne.
Qed.

Lemma suspicious_fixed : bool_decide (suspicious = real) = false
  ∧ bool_decide (suspicious = uncertain) = false.
Proof. split; reflexivity. Qed.

Lemma fake_fixed : bool_decide (fake = real) = false
  ∧ bool_decide (fake = uncertain) = false.
Proof. split; reflexivity. Qed.

(** ** Running the handler *)

Lemma analyze_and_search_inv {rt : Runtime} (raw text : pystr) (analysis : dict)
    (results : list dict) (st st' : state) :
  analyze_and_search raw st = (Ret (text, analysis, results), st') →
  ∃ query st1,
    prepare_query_from_input raw st = (Ret (query, text), st1)
    ∧ (if truthy query then google_search query 6 else mret []) st1 = (Ret results, st')
    ∧ corroborate results (analyze_text text) = Ret analysis.
Proof.
  unfold analyze_and_search.
  intros ([query text'] & st1 & Hprep & Hrest)%bind_ret_inv.
  apply bind_ret_inv in Hrest as (results' & st2 & Hsearch & Hrest).
  apply bind_ret_inv in Hrest as (analysis' & st3 & Hcorr & Hret).
  apply call_ret_inv in Hcorr as [Hcorr ->].
  injection Hret as -> -> -> ->. eauto.
Qed.

(** [save_report] never raises: the row is appended, or the failure is
    logged and the table is left as it was. *)
Lemma save_report_run {rt : Runtime} (text : pystr) (analysis : dict) (st : state) :
  save_report text analysis st =
  match analysis !! "label" with
  | None =>
      (Ret (), {| rows := rows st;
                  log := log st ++ [LogWarning "DB save failed" (KeyError "label")] |})
  | Some label =>
      let rec := {| rep_text := take 2000 text; rep_label := label |} in
      match db_failure (rows st) rec with
      | Some e =>
          (Ret (), {| rows := rows st;
                      log := log st ++ [LogWarning "DB save failed" e] |})
      | None => (Ret (), {| rows := rows st ++ [rec]; log := log st |})
      end
  end.
Proof.
  unfold save_report, try_except, getitem, session_add_commit.
  rewrite bind_run. unfold call, logger.
  destruct (analysis !! "label") as [label|]; [|done].
  by destruct (db_failure _ _).
Qed.

Lemma verify_run {rt : Runtime} (data : payload) (text : pystr) (analysis : dict)
    (results : list dict) (st st1 : state) :
  truthy (raw_input data) = true →
  analyze_and_search (raw_input data) st = (Ret (text, analysis, results), st1) →
  verify data st = (Ret (Verified analysis results), (save_report text analysis st1).2).
Proof.
  intros Hraw Hrun. unfold verify, try_except. cbv zeta.
  rewrite Hraw. cbn [negb]. rewrite bind_run, Hrun, bind_run.
  rewrite save_report_run.
  destruct (analysis !! "label") as [label|]; [|done].
  cbv zeta. by destruct (db_failure _ _).
Qed.

Lemma verify_verified_inv {rt : Runtime} (data : payload) (analysis : dict)
    (results : list dict) (st st' : state) :
  verify data st = (Ret (Verified analysis results), st') →
  truthy (raw_input data) = true
  ∧ ∃ text st1,
      analyze_and_search (raw_input data) st = (Ret (text, analysis, results), st1)
      ∧ save_report text analysis st1 = (Ret (), st').
Proof.
  unfold verify, try_except. cbv zeta.
  destruct (truthy (raw_input data)); cbn [negb]; [|done].
  rewrite bind_run.
  destruct (analyze_and_search _ st) as [[[[text a] sr]|e] st1] eqn:Hrun; [|done].
  rewrite bind_run.
  destruct (save_report text a st1) as [[[]|e] st2] eqn:Hsave; [|done].
  intros [= -> -> ->]. eauto 6.
Qed.

(** C2. With fewer than 3 search results 'real' becomes 'suspicious' and
    'uncertain' becomes 'fake'; 'suspicious' and 'fake' are unchanged for
    every count, and nothing changes with 3 results or more. [verify]
    applies the adjustment once, to the analyzer's result: the analysis it
    returns is [corroborate] of its search results and [analyze_text] of the
    text it analyzed. *)
Theorem corroborate_adjusts (search_results : list dict) (analysis : dict) (label : pystr) :
  analysis !! "label" = Some (VStr label) →
  (length search_results < 3 → label = real →
     corroborate search_results analysis = Ret (<["label" := VStr suspicious]> analysis))
  ∧ (length search_results < 3 → label = uncertain →
       corroborate search_results analysis = Ret (<["label" := VStr fake]> analysis))
  ∧ (label = suspicious ∨ label = fake →
       corroborate search_results analysis = Ret analysis)
  ∧ (3 ≤ length search_results → corroborate search_results analysis = Ret analysis)
  ∧ ∀ (rt : Runtime) (data : payload) (st st' : state) (adjusted : dict)
      (results : list dict),
      verify data st = (Ret (Verified adjusted results), st') →
      ∃ query text st1,
        prepare_query_from_input (raw_input data) st = (Ret (query, text), st1)
        ∧ corroborate results (analyze_text text) = Ret adjusted.
Proof.
  intros Hl. rewrite (corroborate_by_label _ _ _ Hl).
  split_and!.
  - intros Hn%Nat.ltb_lt ->. by rewrite Hn.
  - intros Hn%Nat.ltb_lt ->. by rewrite Hn.
  - intros [-> | ->]; by case_match.
  - intros Hn%Nat.ltb_ge. by rewrite Hn.
  - intros rt data st st' adjusted results (_ & text & st1 & Hrun & _)%verify_verified_inv.
    apply analyze_and_search_inv in Hrun as (query & st2 & ? & _ & ?). eauto.
Qed.

Lemma corroborate_adjusts_witness :
  degenerate !! "label" = Some (VStr uncertain)
  ∧ corroborate [] degenerate = Ret (<["label" := VStr fake]> degenerate).
Proof.
  assert (degenerate !! "label" = Some (VStr uncertain)) as Hl by reflexivity.
  split; [exact Hl |].
  apply (corroborate_adjusts [] degenerate uncertain Hl); [simpl; lia | reflexivity].
Defined.

(** C7. The adjustment is idempotent: adjusting an adjusted analysis again,
    with the same search results, changes nothing. 'suspicious' and 'fake'
    are fixed points for every count. *)
Theorem corroborate_idempotent (search_results : list dict) (analysis adjusted : dict) :
  corroborate search_results analysis = Ret adjusted →
  corroborate search_results adjusted = Ret adjusted
  ∧ ∀ (results : list dict) (a : dict),
      a !! "label" = Some (VStr suspicious) ∨ a !! "label" = Some (VStr fake) →
      corroborate results a = Ret a.
Proof.
  intros Hc. split.
  - revert Hc. unfold corroborate at 1. unfold getitem.
    destruct (length search_results <? 3) eqn:Hn.
    + destruct (analysis !! "label") as [v|] eqn:Hl; [|done].
      destruct (is_str real v) eqn:Hreal; [|destruct (is_str uncertain v) eqn:Hunc].
      * intros [= <-].
        rewrite (corroborate_by_label _ _ suspicious) by apply lookup_insert_eq.
        rewrite Hn. by rewrite (proj1 suspicious_fixed), (proj2 suspicious_fixed).
      * intros [= <-].
        rewrite (corroborate_by_label _ _ fake) by apply lookup_insert_eq.
        rewrite Hn. by rewrite (proj1 fake_fixed), (proj2 fake_fixed).
      * intros [= <-]. unfold corroborate, getitem. by rewrite Hn, Hl, Hreal, Hunc.
    + intros [= <-]. unfold corroborate. by rewrite Hn.
  - intros results a [Hl | Hl]; rewrite (corroborate_by_label _ _ _ Hl).
    + rewrite (proj1 suspicious_fixed), (proj2 suspicious_fixed). by case_match.
    + rewrite (proj1 fake_fixed), (proj2 fake_fixed). by case_match.
Qed.

Lemma corroborate_idempotent_witness :
  corroborate [] degenerate = Ret (<["label" := VStr fake]> degenerate)
  ∧ corroborate [] (<["label" := VStr fake]> degenerate)
    = Ret (<["label" := VStr fake]> degenerate).
Proof.
  assert (corroborate [] degenerate = Ret (<["label" := VStr fake]> degenerate)) as Hc
    by reflexivity.
  split; [exact Hc |].
  exact (proj1 (corroborate_idempotent [] degenerate _ Hc)).
Defined.

(** The neutral sentence with three search results: 'real', unchanged, and
    one row saved. *)
Example verify_neutral_corroborated :
  ∃ analysis results st',
    verify (rt := Sample.answering (replicate 3 Sample.full_result))
           Sample.neutral_request Sample.empty_state
    = (Ret (Verified analysis results), st')
    ∧ length results = 3
    ∧ analysis !! "label" = Some (VStr real)
    ∧ rows st' = [ {| rep_text := Sample.neutral_text; rep_label := VStr real |} ].
Proof. eexists _, _, _. split; [vm_compute; reflexivity |]. split_and!; reflexivity. Qed.

(** ** Persistence *)

(** C8. The stored text is the first 2000 characters of the analyzed text:
    when the session accepts the row, exactly the row of that text and of
    the label of the analysis is appended and nothing is logged. Saving
    never raises: when the session fails the failure is logged as a warning
    and the table is left as it was. Whatever the save does, [verify]
    answers with the analysis and the search results. *)
Theorem save_failure_not_propagated {rt : Runtime} :
  (∀ (text : pystr) (analysis : dict) (st : state),
     ∃ st', save_report text analysis st = (Ret (), st')
       ∧ ∀ r, r ∈ rows st' →
           r ∈ rows st ∨ (rep_text r = take 2000 text ∧ length (rep_text r) ≤ 2000))
  ∧ (∀ (text : pystr) (analysis : dict) (label : pyval) (st : state) (e : exn),
       analysis !! "label" = Some label →
       db_failure (rows st) {| rep_text := take 2000 text; rep_label := label |} = Some e →
       save_report text analysis st =
       (Ret (), {| rows := rows st; log := log st ++ [LogWarning "DB save failed" e] |}))
  ∧ (∀ (text : pystr) (analysis : dict) (label : pyval) (st : state),
       analysis !! "label" = Some label →
       db_failure (rows st) {| rep_text := take 2000 text; rep_label := label |} = None →
       save_report text analysis st =
       (Ret (), {| rows := rows st ++ [ {| rep_text := take 2000 text; rep_label := label |} ];
                   log := log st |})
       ∧ length (take 2000 text) ≤ 2000)
  ∧ (∀ (data : payload) (text : pystr) (analysis : dict) (results : list dict)
       (st st1 : state),
       truthy (raw_input data) = true →
       analyze_and_search (raw_input data) st = (Ret (text, analysis, results), st1) →
       ∃ st2, save_report text analysis st1 = (Ret (), st2)
         ∧ verify data st = (Ret (Verified analysis results), st2)).
Proof.
  split_and!.
  - intros text analysis st. rewrite save_report_run.
    destruct (analysis !! "label") as [label|]; [cbv zeta|]; [destruct (db_failure _ _)|];
      eexists; (split; [reflexivity |]); cbn [rows]; intros r Hr; auto.
    apply elem_of_app in Hr as [Hr | ->%list_elem_of_singleton]; [by left | right].
    cbn [rep_text]. split; [done |]. rewrite length_take. lia.
  - intros text analysis label st e Hl He. rewrite save_report_run, Hl. cbv zeta.
    by rewrite He.
  - intros text analysis label st Hl Hok. rewrite save_report_run, Hl. cbv zeta.
    rewrite Hok. split; [done |]. rewrite length_take. lia.
  - intros data text analysis results st st1 Hraw Hrun.
    rewrite (verify_run _ _ _ _ _ _ Hraw Hrun).
    destruct (save_report text analysis st1) as [o st2] eqn:Hsave.
    pose proof (save_report_run text analysis st1) as Hshape. rewrite Hsave in Hshape.
    exists st2. split; [|done].
    destruct (analysis !! "label"); [cbv zeta in Hshape; destruct (db_failure _ _)|];
      by injection Hshape as -> ->.
Qed.

Lemma save_failure_not_propagated_witness :
  let adjusted : dict :=
    <["label" := VStr suspicious]> (analyze_text (rt := Sample.db_down) Sample.neutral_text) in
  let st1 : state :=
    {| rows := [];
       log := [LogWarning "google_search_scrape error" (ExternalError "requests.get")] |} in
  (∃ st2,
     save_report (rt := Sample.db_down) Sample.neutral_text adjusted st1 = (Ret (), st2)
     ∧ verify (rt := Sample.db_down) Sample.neutral_request Sample.empty_state
       = (Ret (Verified adjusted []), st2))
  ∧ save_report (rt := Sample.db_down) Sample.neutral_text adjusted st1
    = (Ret (), {| rows := [];
                  log := log st1 ++ [LogWarning "DB save failed" (ExternalError "commit")] |})
  ∧ save_report (rt := Sample.offline) Sample.neutral_text adjusted st1
    = (Ret (), {| rows := [ {| rep_text := take 2000 Sample.neutral_text;
                               rep_label := VStr suspicious |} ];
                  log := log st1 |}).
Proof.
  cbv zeta. split_and!.
  - apply (proj2 (proj2 (proj2 (save_failure_not_propagated (rt := Sample.db_down))))
             Sample.neutral_request Sample.neutral_text _ [] Sample.empty_state).
    + vm_compute. reflexivity.
    + vm_compute. reflexivity.
  - apply (proj1 (proj2 (save_failure_not_propagated (rt := Sample.db_down)))
             Sample.neutral_text _ (VStr suspicious)
             {| rows := [];
                log := [LogWarning "google_search_scrape error"
                          (ExternalError "requests.get")] |}
             (ExternalError "commit")); reflexivity.
  - apply (proj1 (proj2 (proj2 (save_failure_not_propagated (rt := Sample.offline))))
             Sample.neutral_text _ (VStr suspicious)
             {| rows := [];
                log := [LogWarning "google_search_scrape error"
                          (ExternalError "requests.get")] |}); reflexivity.
Defined.

(** The same run, in full: the database is down, the answer is
    the analysis with the label adjusted for want of search results, and
    the failure is in the log. *)
Example verify_with_database_down :
  verify (rt := Sample.db_down) Sample.neutral_request Sample.empty_state =
  (Ret (Verified
          (<["label" := VStr suspicious]>
             (analyze_text (rt := Sample.db_down) Sample.neutral_text)) []),
   {| rows := [];
      log := [ LogWarning "google_search_scrape error" (ExternalError "requests.get");
               LogWarning "DB save failed" (ExternalError "commit") ] |}).
Proof. vm_compute. reflexivity. Qed.

(** ** The keys of the analysis *)

Lemma indicators_not_degenerate :
  "indicators" ∉ ({[ "tokens"; "sentiment"; "label"; "preview" ]} : gset string).
Proof. rewrite !not_elem_of_union, !not_elem_of_singleton. by split_and!. Qed.

Lemma indicators_in_full :
  "indicators" ∈ ({[ "tokens"; "sentiment"; "label"; "preview"; "indicators" ]} : gset string).
Proof. rewrite !elem_of_union, !elem_of_singleton. by repeat right. Qed.

Lemma dom_degenerate :
  dom degenerate = ({[ "tokens"; "sentiment"; "label"; "preview" ]} : gset string).
Proof. unfold degenerate. rewrite !dom_insert_L, dom_singleton_L. set_solver. Qed.

(** C10. The degenerate result has exactly the keys tokens, sentiment,
    label and preview; every other result has these and indicators. So the
    analysis in the answer of [verify] lacks the indicators key exactly when
    the analyzed text has fewer than 10 characters once trimmed. *)
Theorem indicators_key {rt : Runtime} :
  (∀ text : pystr, length (strip text) < 10 →
     dom (analyze_text text)
     = ({[ "tokens"; "sentiment"; "label"; "preview" ]} : gset string))
  ∧ (∀ text : pystr, 10 ≤ length (strip text) →
       dom (analyze_text text)
       = ({[ "tokens"; "sentiment"; "label"; "preview"; "indicators" ]} : gset string))
  ∧ (∀ (data : payload) (st st' : state) (analysis : dict) (results : list dict),
       verify data st = (Ret (Verified analysis results), st') →
       ∃ query text st1,
         prepare_query_from_input (raw_input data) st = (Ret (query, text), st1)
         ∧ dom analysis = dom (analyze_text text)
         ∧ ("indicators" ∉ dom analysis ↔ length (strip text) < 10)).
Proof.
  assert (∀ text : pystr, length (strip text) < 10 →
            dom (analyze_text text)
            = ({[ "tokens"; "sentiment"; "label"; "preview" ]} : gset string)) as Hshort.
  { intros text Hlen. rewrite analyze_text_short by done. apply dom_degenerate. }
  assert (∀ text : pystr, 10 ≤ length (strip text) →
            dom (analyze_text text)
            = ({[ "tokens"; "sentiment"; "label"; "preview"; "indicators" ]} : gset string))
    as Hlong.
  { intros text Hlen. rewrite analyze_text_long by done.
    rewrite !dom_insert_L, dom_singleton_L. set_solver. }
  split_and!; [done.. |].
  intros data st st' analysis results (_ & text & st1 & Hrun & _)%verify_verified_inv.
  apply analyze_and_search_inv in Hrun as (query & st2 & Hprep & _ & Hcorr).
  exists query, text, st2. split; [done |].
  apply corroborate_dom in Hcorr. split; [done |]. rewrite Hcorr.
  destruct (Nat.lt_ge_cases (length (strip text)) 10) as [Hlen | Hlen].
  - rewrite Hshort by done. split; [done | intros _; apply indicators_not_degenerate].
  - rewrite Hlong by done. split; [by intros []; apply indicators_in_full | lia].
Qed.

Lemma indicators_key_witness :
  (length (strip (lit " hi there ")) < 10
   ∧ dom (analyze_text (rt := Sample.offline) (lit " hi there "))
     = ({[ "tokens"; "sentiment"; "label"; "preview" ]} : gset string))
  ∧ (10 ≤ length (strip Sample.neutral_text)
     ∧ dom (analyze_text (rt := Sample.offline) Sample.neutral_text)
       = ({[ "tokens"; "sentiment"; "label"; "preview"; "indicators" ]} : gset string)).
Proof.
  assert (length (strip (lit " hi there ")) < 10) as Hshort by (vm_compute; lia).
  assert (10 ≤ length (strip Sample.neutral_text)) as Hlong by (vm_compute; lia).
  split; (split; [assumption |]).
  - exact (proj1 (indicators_key (rt := Sample.offline)) _ Hshort).
  - exact (proj1 (proj2 (indicators_key (rt := Sample.offline))) _ Hlong).
Defined.

(** A short text through [verify]: the answer has no indicators key, and
    its 'uncertain' has become 'fake' for want of search results. *)
Example verify_short_text :
  ∃ analysis st',
    verify (rt := Sample.offline) {| p_url := None; p_text := Some (lit " hi there ") |}
           Sample.empty_state
    = (Ret (Verified analysis []), st')
    ∧ analysis !! "indicators" = None
    ∧ analysis !! "label" = Some (VStr fake).
Proof. eexists _, _. split; [vm_compute; reflexivity |]. split; reflexivity. Qed.

(** ** Content extraction *)

(** A page whose paragraphs give no text: the body is the title, and what
    the meta elements say is read only when the title is empty too. *)
Lemma extract_no_paragraph_text {rt : Runtime} (url s : pystr) (page : soup) (st : state) :
  fetch url = Ret page →
  title_tag page = Some (Some s) →
  join_space (take max_paragraphs (p_texts page)) = [] →
  extract_text_from_url url st =
  (Ret (strip s,
        if truthy (strip s) then strip s
        else match meta_description page ∪ meta_og_description page with
             | Some meta => default [] meta
             | None => strip s
             end), st).
Proof.
  intros Hfetch Htitle Hjoin. unfold extract_text_from_url, try_except.
  rewrite bind_run. unfold call. rewrite Hfetch, Htitle, bind_run. cbv zeta.
  rewrite Hjoin. unfold mret, M_ret, run_ret, or_else. cbn [truthy].
  by destruct (truthy (strip s)).
Qed.

(** C5, at the failing input: a page with the title "Title", no paragraph
    and the meta description "Description". The body is the title; the
    description is not read. *)
Theorem extract_title_before_meta :
  extract_text_from_url (rt := Sample.serving Sample.titled_page)
    (lit "http://example.org/") Sample.empty_state
  = (Ret (lit "Title", lit "Title"), Sample.empty_state).
Proof. vm_compute. reflexivity. Qed.

(** ** Search *)

Lemma scrape_container_inv (g : container) (results results' : list dict) :
  scrape_container g results = Ret results' →
  results' = results ∨ ∃ d, results' = results ++ [d] ∧ snippet_is_str d.
Proof.
  unfold scrape_container.
  destruct (a_href g) as [[href|]|]; [|done|]; case_match; intros [= <-]; auto.
  all: right; eexists; split; [done |]; by eexists.
Qed.

Lemma scrape_loop_length (gs : list container) :
  ∀ results results' : list dict,
    scrape_loop gs results = Ret results' →
    length results' ≤ length results + length gs.
Proof.
  induction gs as [|g gs IH]; intros results results'; simpl.
  - intros [= <-]. lia.
  - destruct (scrape_container g results) as [mid|e] eqn:Hg; [|done].
    intros Hloop%IH.
    apply scrape_container_inv in Hg as [-> | (d & -> & _)];
      rewrite ?length_app in Hloop; simpl in Hloop; lia.
Qed.

Lemma scrape_loop_snippets (gs : list container) :
  ∀ results results' : list dict,
    scrape_loop gs results = Ret results' →
    Forall snippet_is_str results → Forall snippet_is_str results'.
Proof.
  induction gs as [|g gs IH]; intros results results'; simpl.
  - by intros [= <-].
  - destruct (scrape_container g results) as [mid|e] eqn:Hg; [|done].
    intros Hloop Hres. apply (IH _ _ Hloop).
    apply scrape_container_inv in Hg as [-> | (d & -> & Hd)]; [done |].
    apply Forall_app. split; [done | by constructor].
Qed.

(** The API path answers, with at most [num] results. *)
Lemma google_search_serpapi_run {rt : Runtime} (query : pystr) (num : nat) (st : state) :
  ∃ results st',
    google_search_serpapi query num st = (Ret results, st') ∧ length results ≤ num.
Proof.
  unfold google_search_serpapi.
  destruct (truthy SERPAPI_KEY); cbn [negb].
  - unfold try_except. rewrite bind_run. unfold call.
    destruct (serpapi_organic_results query num) as [organic|e].
    + eexists _, _. split; [reflexivity |].
      rewrite length_fmap, length_take. lia.
    + eexists _, _. split; [reflexivity |]. simpl. lia.
  - eexists _, _. split; [reflexivity |]. simpl. lia.
Qed.

(** The scraping path answers, with at most [num] results, each with a
    string for its snippet. *)
Lemma google_search_scrape_run {rt : Runtime} (query : pystr) (num : nat) (st : state) :
  ∃ results st',
    google_search_scrape query num st = (Ret results, st')
    ∧ length results ≤ num ∧ Forall snippet_is_str results.
Proof.
  unfold google_search_scrape, try_except. rewrite bind_run. unfold call.
  destruct (fetch_results_page query num) as [page|e].
  - cbv zeta.
    destruct (scrape_loop _ []) as [results|e] eqn:Hloop.
    + eexists _, _. split; [reflexivity |]. split.
      * apply scrape_loop_length in Hloop. rewrite length_take in Hloop.
        simpl in Hloop. lia.
      * by apply (scrape_loop_snippets _ _ _ Hloop).
    + eexists _, _. split; [reflexivity |]. split; [simpl; lia | constructor].
  - eexists _, _. split; [reflexivity |]. split; [simpl; lia | constructor].
Qed.

(** [google_search] answers, with at most [num] results. *)
Lemma google_search_run {rt : Runtime} (query : pystr) (num : nat) (st : state) :
  ∃ results st',
    google_search query num st = (Ret results, st') ∧ length results ≤ num.
Proof.
  unfold google_search. rewrite bind_run.
  destruct (google_search_serpapi_run query num st) as (results & st1 & -> & Hlen).
  destruct results as [|d results].
  - destruct (google_search_scrape_run query num st1) as (results & st2 & -> & ? & _).
    eauto.
  - eauto.
Qed.

(** C9, at the failing input: the search API answers with one organic
    result that has a title and a link and no snippet. The result returned
    has [None] for its snippet. *)
Theorem serpapi_snippet_none :
  google_search (rt := Sample.answering [Sample.bare_result]) (lit "query") 6
    Sample.empty_state
  = (Ret [ {[ "title" := VStr (lit "Title");
              "url" := VStr (lit "http://example.org/");
              "snippet" := VNone ]} ],
     Sample.empty_state).
Proof. vm_compute. reflexivity. Qed.

(** * Further properties *)

(** ** What a computation leaves of the state *)

Lemma logs_only_refl (st : state) : logs_only st st.
Proof. by split. Qed.

Lemma logs_only_trans (st1 st2 st3 : state) :
  logs_only st1 st2 → logs_only st2 st3 → logs_only st1 st3.
Proof. intros [Hr1 Hl1] [Hr2 Hl2]. split; [congruence | by etrans]. Qed.

Lemma logs_only_logger (entry : log_entry) (st : state) :
  logs_only st {| rows := rows st; log := log st ++ [entry] |}.
Proof. split; [done | by apply prefix_app_r]. Qed.

(** ** Content extraction, beyond the fallback order *)

Lemma join_space_nil_iff (ps : list pystr) :
  join_space ps = [] ↔ ps = [] ∨ ps = [[]].
Proof.
  destruct ps as [|s [|s' ps]]; simpl.
  - naive_solver.
  - split; [intros ->; by right | by intros [? | [=]]].
  - split; [by intros [_ [=]]%app_nil | by intros [? | ?]].
Qed.

(** The run of [extract_text_from_url], whatever the page. *)
Lemma extract_run {rt : Runtime} (url : pystr) (st : state) :
  ∃ title content st',
    extract_text_from_url url st = (Ret (title, content), st')
    ∧ rows st' = rows st
    ∧ (log st' = log st
       ∨ ∃ e, log st' = log st ++ [LogWarning "extract_text_from_url error" e]
              ∧ title = url ∧ content = url)
    ∧ ∀ e, fetch url = Raise e →
        title = url ∧ content = url
        ∧ log st' = log st ++ [LogWarning "extract_text_from_url error" e].
Proof.
  unfold extract_text_from_url, try_except. rewrite bind_run. unfold call.
  destruct (fetch url) as [page|e].
  - destruct (title_tag page) as [[s|]|]; rewrite bind_run; cbv zeta.
    + eexists _, _, _. split; [reflexivity |]. split_and!; [done | by left | done].
    + eexists _, _, _. split; [reflexivity |]. split_and!; [done | | done].
      right. by eexists.
    + eexists _, _, _. split; [reflexivity |]. split_and!; [done | by left | done].
  - eexists _, _, _. split; [reflexivity |]. split_and!; [done | |].
    + right. by eexists.
    + by intros ? [= <-].
Qed.

(** X1. [extract_text_from_url] never raises and never touches the table.
    Either it logs nothing, or it logs one warning and answers with the URL
    for both title and body; a failed fetch is such a case. *)
Theorem extract_fails_soft {rt : Runtime} (url : pystr) (st : state) :
  ∃ title content st',
    extract_text_from_url url st = (Ret (title, content), st')
    ∧ rows st' = rows st
    ∧ (log st' = log st
       ∨ ∃ e, log st' = log st ++ [LogWarning "extract_text_from_url error" e]
              ∧ title = url ∧ content = url)
    ∧ ∀ e, fetch url = Raise e →
        title = url ∧ content = url
        ∧ log st' = log st ++ [LogWarning "extract_text_from_url error" e].
Proof.
  destruct (extract_run url st) as (title & content & st' & Hrun & Hrows & Hlog & Hfail).
  exists title, content, st'. by split_and!.
Qed.

(** X2. A page whose title element has no single string (nested markup)
    loses everything: the answer is the URL for title and body, whatever the
    paragraphs say, and the [AttributeError] is logged. *)
Theorem extract_title_without_string {rt : Runtime} (url : pystr) (page : soup)
    (st : state) :
  fetch url = Ret page →
  title_tag page = Some None →
  extract_text_from_url url st =
  (Ret (url, url),
   {| rows := rows st;
      log := log st ++ [LogWarning "extract_text_from_url error" AttributeError] |}).
Proof.
  intros Hfetch Htitle. unfold extract_text_from_url, try_except.
  rewrite bind_run. unfold call. by rewrite Hfetch, Htitle.
Qed.

Lemma extract_title_without_string_witness :
  extract_text_from_url (rt := Sample.serving Cases.markup_title_page)
    Cases.example_url Sample.empty_state =
  (Ret (Cases.example_url, Cases.example_url),
   {| rows := [];
      log := [LogWarning "extract_text_from_url error" AttributeError] |}).
Proof.
  apply (extract_title_without_string (rt := Sample.serving Cases.markup_title_page)
           Cases.example_url Cases.markup_title_page Sample.empty_state);
    reflexivity.
Defined.

(** X3. On a page that is fetched and whose title element, when there is
    one, has a string (otherwise the extractor fails as in X2): the body is
    the first 15 paragraph texts joined by spaces as soon as these are not
    the empty list or one empty text, and neither the title nor the meta
    elements supply it then. Two paragraphs suffice even when both are
    empty, the body being the separator alone. *)
Theorem extract_paragraphs_win {rt : Runtime} (url : pystr) (page : soup) (st : state) :
  fetch url = Ret page →
  title_tag page ≠ Some None →
  take max_paragraphs (p_texts page) ≠ [] →
  take max_paragraphs (p_texts page) ≠ [[]] →
  ∃ title,
    extract_text_from_url url st
    = (Ret (title, join_space (take max_paragraphs (p_texts page))), st)
    ∧ join_space (take max_paragraphs (p_texts page)) ≠ []
    ∧ (2 ≤ length (take max_paragraphs (p_texts page)) →
       space ∈ join_space (take max_paragraphs (p_texts page))).
Proof.
  intros Hfetch Htitle Hne Hne'.
  assert (join_space (take max_paragraphs (p_texts page)) ≠ []) as Hjoin.
  { rewrite join_space_nil_iff. by intros [? | ?]. }
  unfold extract_text_from_url, try_except. rewrite bind_run. unfold call.
  rewrite Hfetch.
  assert (∀ title : pystr,
            or_else (join_space (take max_paragraphs (p_texts page))) title
            = join_space (take max_paragraphs (p_texts page))) as Hor.
  { intros title. unfold or_else.
    by destruct (join_space (take max_paragraphs (p_texts page))). }
  assert (truthy (join_space (take max_paragraphs (p_texts page))) = true) as Htruthy.
  { by destruct (join_space (take max_paragraphs (p_texts page))). }
  assert (2 ≤ length (take max_paragraphs (p_texts page)) →
          space ∈ join_space (take max_paragraphs (p_texts page))) as Hspace.
  { destruct (take max_paragraphs (p_texts page)) as [|s [|s' ps]]; simpl; [lia.. |].
    intros _. apply elem_of_app. right. by left. }
  destruct (title_tag page) as [[s|]|]; [| done |];
    rewrite bind_run; cbv beta iota zeta delta [mret M_ret run_ret];
    rewrite Hor, Htruthy; by eexists.
Qed.

Lemma extract_paragraphs_win_witness :
  ∃ title,
    extract_text_from_url (rt := Sample.serving Cases.empty_paragraphs_page)
      Cases.example_url Sample.empty_state
    = (Ret (title, [space]), Sample.empty_state)
    ∧ [space] ≠ []
    ∧ (2 ≤ 2 → space ∈ [space]).
Proof.
  apply (extract_paragraphs_win (rt := Sample.serving Cases.empty_paragraphs_page)
           Cases.example_url Cases.empty_paragraphs_page Sample.empty_state);
    [reflexivity | discriminate..].
Defined.

(** ** Search, beyond the length bound *)

Lemma google_search_serpapi_soft {rt : Runtime} (query : pystr) (num : nat) (st : state) :
  ∃ results st',
    google_search_serpapi query num st = (Ret results, st')
    ∧ logs_only st st' ∧ length results ≤ num.
Proof.
  unfold google_search_serpapi.
  destruct (truthy SERPAPI_KEY); cbn [negb].
  - unfold try_except. rewrite bind_run. unfold call.
    destruct (serpapi_organic_results query num) as [organic|e].
    + eexists _, _. split; [reflexivity |]. split; [apply logs_only_refl |].
      rewrite length_fmap, length_take. lia.
    + eexists _, _. split; [reflexivity |]. split; [apply logs_only_logger |].
      simpl. lia.
  - eexists _, _. split; [reflexivity |]. split; [apply logs_only_refl |]. simpl. lia.
Qed.

Lemma scrape_container_shape (g : container) (results results' : list dict) :
  scrape_container g results = Ret results' →
  results' = results ∨ ∃ d, results' = results ++ [d] ∧ scraped_shape d.
Proof.
  unfold scrape_container.
  destruct (a_href g) as [[href|]|]; [|done|]; cbn [mbind option_bind id];
    destruct (opt_truthy (h3_text g)) eqn:Hh3; cbn [orb].
  - intros [= <-]. right. eexists. split; [done |].
    destruct (h3_text g) as [t|]; [|done].
    exists t, (default [] (snippet_text g)). split_and!; [done | | done | right; by eexists].
    by destruct t.
  - destruct (opt_truthy (Some href)) eqn:Hhref; intros [= <-]; [right | by left].
    eexists. split; [done |].
    exists href, (default [] (snippet_text g)). split_and!; [done | | done | right; by eexists].
    by destruct href.
  - intros [= <-]. right. eexists. split; [done |].
    destruct (h3_text g) as [t|]; [|done].
    exists t, (default [] (snippet_text g)). split_and!; [done | | done | by left].
    by destruct t.
  - intros [= <-]. by left.
Qed.

Lemma scrape_loop_shape (gs : list container) :
  ∀ results results' : list dict,
    scrape_loop gs results = Ret results' →
    Forall scraped_shape results → Forall scraped_shape results'.
Proof.
  induction gs as [|g gs IH]; intros results results'; simpl.
  - by intros [= <-].
  - destruct (scrape_container g results) as [mid|e] eqn:Hg; [|done].
    intros Hloop Hres. apply (IH _ _ Hloop).
    apply scrape_container_shape in Hg as [-> | (d & -> & Hd)]; [done |].
    apply Forall_app. split; [done | by constructor].
Qed.

(** The loop raises as soon as one block has an anchor without [href]. *)
Lemma scrape_loop_no_href (gs : list container) (g : container) :
  g ∈ gs → a_href g = Some None →
  ∀ results, scrape_loop gs results = Raise (KeyError "href").
Proof.
  intros Hin Hg. induction gs as [|g0 gs IH]; [by apply elem_of_nil in Hin |].
  intros results. simpl.
  destruct (scrape_container g0 results) as [mid|e] eqn:Hg0.
  - apply elem_of_cons in Hin as [-> | Hin]; [|by apply IH].
    unfold scrape_container in Hg0. by rewrite Hg in Hg0.
  - unfold scrape_container in Hg0.
    destruct (a_href g0) as [[href|]|]; [| by injection Hg0 as <- |];
      by case_match.
Qed.

(** The run of [google_search], whatever the network does. *)
Lemma google_search_soft {rt : Runtime} (query : pystr) (num : nat) (st : state) :
  ∃ results st',
    google_search query num st = (Ret results, st')
    ∧ rows st' = rows st
    ∧ log st `prefix_of` log st'
    ∧ length results ≤ num.
Proof.
  unfold google_search. rewrite bind_run.
  destruct (google_search_serpapi_soft query num st)
    as (results & st1 & -> & [Hrows Hlog] & Hlen).
  destruct results as [|d results]; [|by eexists _, _].
  unfold google_search_scrape, try_except. rewrite bind_run. unfold call.
  destruct (fetch_results_page query num) as [page|e]; cbv zeta.
  - destruct (scrape_loop _ []) as [results|e] eqn:Hloop.
    + eexists _, _. split; [reflexivity |]. split_and!; [done.. |].
      apply scrape_loop_length in Hloop. rewrite length_take in Hloop.
      simpl in Hloop. lia.
    + eexists _, _. split; [reflexivity |]. cbn [rows log].
      split_and!; [done | by apply prefix_app_r | simpl; lia].
  - eexists _, _. split; [reflexivity |]. cbn [rows log].
    split_and!; [done | by apply prefix_app_r | simpl; lia].
Qed.

(** X4. [google_search] never raises and never touches the table: both
    paths turn every failure into a warning and an empty list, and the
    answer has at most [num] results. *)
Theorem google_search_fails_soft {rt : Runtime} (query : pystr) (num : nat) (st : state) :
  ∃ results st',
    google_search query num st = (Ret results, st')
    ∧ rows st' = rows st
    ∧ log st `prefix_of` log st'
    ∧ length results ≤ num.
Proof.
  destruct (google_search_soft query num st) as (results & st' & Hrun & Hrows & Hlog & Hlen).
  exists results, st'. by split_and!.
Qed.

(** X5. When the API answers with at least one organic result (and a
    result is asked for), [google_search] returns the first [num] of them,
    each reduced to title, url and snippet; the result page is not scraped
    and nothing is logged. *)
Theorem google_search_api_first {rt : Runtime} (query : pystr) (num : nat)
    (organic : list dict) (st : state) :
  truthy SERPAPI_KEY = true →
  serpapi_organic_results query num = Ret (Some organic) →
  organic ≠ [] → 0 < num →
  google_search query num st =
  (Ret ((λ it : dict,
           ({[ "title" := get "title" it; "url" := get "link" it;
               "snippet" := get "snippet" it ]} : dict))
        <$> take num organic), st).
Proof.
  intros Hkey Hapi Hne Hnum. unfold google_search, google_search_serpapi.
  rewrite Hkey. cbn [negb]. rewrite bind_run. unfold try_except.
  rewrite bind_run. unfold call. rewrite Hapi.
  cbv beta iota zeta delta [mret M_ret run_ret]. cbn [default].
  destruct organic as [|it organic]; [done |].
  destruct num as [|num]; [lia |]. reflexivity.
Qed.

Lemma google_search_api_first_witness :
  google_search (rt := Sample.answering (replicate 3 Sample.full_result))
    (lit "query") 2 Sample.empty_state =
  (Ret (replicate 2
          ({[ "title" := VStr (lit "Title"); "url" := VStr (lit "http://example.org/");
              "snippet" := VStr (lit "Snippet") ]} : dict)),
   Sample.empty_state).
Proof.
  apply (google_search_api_first (rt := Sample.answering (replicate 3 Sample.full_result))
           (lit "query") 2 (replicate 3 Sample.full_result) Sample.empty_state);
    [reflexivity | reflexivity | discriminate | lia].
Defined.

(** X6. One result block whose anchor has no [href], among the first
    [num] of the selection, costs every result: the scraper answers with the
    empty list and logs the [KeyError]. *)
Theorem scrape_missing_href_drops_all {rt : Runtime} (query : pystr) (num : nat)
    (page : results_page) (g : container) (st : state) :
  fetch_results_page query num = Ret page →
  g ∈ take num (list_or (sel_tF2Cxc page) (list_or (sel_g page) (sel_yuRUbf page))) →
  a_href g = Some None →
  google_search_scrape query num st =
  (Ret [],
   {| rows := rows st;
      log := log st ++ [LogWarning "google_search_scrape error" (KeyError "href")] |}).
Proof.
  intros Hpage Hin Hg. unfold google_search_scrape, try_except.
  rewrite bind_run. unfold call. rewrite Hpage. cbv zeta.
  by rewrite (scrape_loop_no_href _ _ Hin Hg).
Qed.

Lemma scrape_missing_href_drops_all_witness :
  google_search_scrape
    (rt := Cases.scraping (Cases.page_of [Cases.good_block; Cases.no_href_block]))
    (lit "query") 6 Sample.empty_state =
  (Ret [],
   {| rows := [];
      log := [LogWarning "google_search_scrape error" (KeyError "href")] |}).
Proof.
  apply (scrape_missing_href_drops_all
           (rt := Cases.scraping (Cases.page_of [Cases.good_block; Cases.no_href_block]))
           (lit "query") 6 (Cases.page_of [Cases.good_block; Cases.no_href_block])
           Cases.no_href_block Sample.empty_state).
  - reflexivity.
  - apply elem_of_cons. right. apply elem_of_cons. by left.
  - reflexivity.
Defined.

(** X7. Every result of the scraper has a non-empty string for its title
    (the heading, or the link when there is no heading text), a string for
    its snippet, and a string or [None] for its url. *)
Theorem google_search_scrape_shape {rt : Runtime} (query : pystr) (num : nat) (st : state) :
  ∃ results st',
    google_search_scrape query num st = (Ret results, st')
    ∧ Forall scraped_shape results.
Proof.
  unfold google_search_scrape, try_except. rewrite bind_run. unfold call.
  destruct (fetch_results_page query num) as [page|e]; cbv zeta.
  - destruct (scrape_loop _ []) as [results|e] eqn:Hloop.
    + eexists _, _. split; [reflexivity |].
      by apply (scrape_loop_shape _ _ _ Hloop).
    + eexists _, _. split; [reflexivity | constructor].
  - eexists _, _. split; [reflexivity | constructor].
Qed.

(** A page of one block, scraped. *)
Example scrape_good_block :
  google_search_scrape (rt := Cases.scraping (Cases.page_of [Cases.good_block]))
    (lit "query") 6 Sample.empty_state =
  (Ret [ {[ "title" := VStr (lit "Heading"); "url" := VStr (lit "http://example.org/");
            "snippet" := VStr [] ]} ],
   Sample.empty_state).
Proof. vm_compute. reflexivity. Qed.

(** ** Trimming *)

Lemma lstrip_head (s : pystr) :
  match lstrip s with [] => True | c :: _ => isspace c = false end.
Proof.
  induction s as [|c s IH]; simpl; [done |].
  destruct (isspace c) eqn:Hc; [done | by rewrite Hc].
Qed.

Lemma lstrip_id (s : pystr) :
  match s with [] => True | c :: _ => isspace c = false end → lstrip s = s.
Proof. destruct s as [|c s]; simpl; [done | by intros ->]. Qed.

Lemma lstrip_idemp (s : pystr) : lstrip (lstrip s) = lstrip s.
Proof. apply lstrip_id, lstrip_head. Qed.

Lemma lstrip_snoc (s : pystr) (c : N) :
  isspace c = false → lstrip (s ++ [c]) = lstrip s ++ [c].
Proof.
  intros Hc. induction s as [|d s IH]; simpl; [by rewrite Hc |].
  by destruct (isspace d).
Qed.

Lemma rstrip_idemp (s : pystr) : rstrip (rstrip s) = rstrip s.
Proof. unfold rstrip. by rewrite reverse_involutive, lstrip_idemp. Qed.

Lemma rstrip_cons (c : N) (s : pystr) :
  isspace c = false → rstrip (c :: s) = c :: rstrip s.
Proof.
  intros Hc. unfold rstrip.
  by rewrite reverse_cons, lstrip_snoc, reverse_app by done.
Qed.

(** Trimming twice is trimming once. *)
Lemma strip_idemp (s : pystr) : strip (strip s) = strip s.
Proof.
  unfold strip. pose proof (lstrip_head s) as Hhead.
  destruct (lstrip s) as [|c u]; [reflexivity |].
  rewrite (rstrip_cons c u Hhead).
  rewrite (lstrip_id (c :: rstrip u)) by done.
  by rewrite <- (rstrip_cons c u Hhead), rstrip_idemp.
Qed.

Lemma truthy_true (s : pystr) : truthy s = true ↔ s ≠ [].
Proof. by destruct s. Qed.

Lemma truthy_false (s : pystr) : truthy s = false ↔ s = [].
Proof. by destruct s. Qed.

Lemma or_else_nonempty (a b : pystr) : b ≠ [] → or_else a b ≠ [].
Proof. unfold or_else. by destruct a. Qed.

Lemma raw_input_strip (data : payload) : strip (raw_input data) = raw_input data.
Proof. apply strip_idemp. Qed.

(** ** The handler, end to end *)

Lemma classify_not_uncertain (n : nat) (p : float) : classify n p ≠ uncertain.
Proof.
  rewrite classify_cases. cbv zeta.
  repeat case_match; intros Heq; vm_compute in Heq; discriminate.
Qed.

(** The label of an analysis: a string, 'uncertain' exactly for the short
    texts. *)
Lemma analyze_text_label {rt : Runtime} (text : pystr) :
  ∃ label,
    analyze_text text !! "label" = Some (VStr label)
    ∧ label ∈ [real; suspicious; fake; uncertain]
    ∧ (label = uncertain ↔ length (strip text) < 10).
Proof.
  destruct (Nat.lt_ge_cases (length (strip text)) 10) as [Hlen | Hlen].
  - rewrite analyze_text_short by done. exists uncertain.
    split_and!; [done | set_unfold; tauto | done].
  - rewrite analyze_text_long by done. eexists. split_and!; [done | apply classify_range |].
    split; [by intros ?%classify_not_uncertain | lia].
Qed.

(** The three ways of [prepare_query_from_input]. *)
Lemma prepare_cases {rt : Runtime} (raw : pystr) (st : state) :
  (strip raw = [] ∧ prepare_query_from_input raw st = (Ret ([], []), st))
  ∨ (strip raw ≠ []
     ∧ startswith http (strip raw) || startswith https (strip raw) = false
     ∧ prepare_query_from_input raw st = (Ret (strip raw, strip raw), st))
  ∨ (strip raw ≠ []
     ∧ startswith http (strip raw) || startswith https (strip raw) = true
     ∧ ∃ title content st1,
         extract_text_from_url (strip raw) st = (Ret (title, content), st1)
         ∧ logs_only st st1
         ∧ prepare_query_from_input raw st =
           (match netloc (strip raw) with
            | Ret domain =>
                Ret (or_else title (or_else domain (strip raw)),
                     or_else content (or_else title (strip raw)))
            | Raise e => Raise e
            end, st1)).
Proof.
  unfold prepare_query_from_input. cbv zeta.
  destruct (strip raw) as [|c r] eqn:Hraw; [by left | right].
  cbn [truthy negb].
  destruct (startswith http (c :: r) || startswith https (c :: r)); [right | by left].
  split_and!; [done.. |].
  destruct (extract_run (c :: r) st) as (title & content & st1 & Hex & Hrows & Hlog & _).
  exists title, content, st1. split_and!; [done | | ].
  - split; [done |]. destruct Hlog as [-> | (e & -> & _)]; [done | by apply prefix_app_r].
  - rewrite bind_run, Hex, bind_run. unfold call. by destruct (netloc (c :: r)).
Qed.

(** [verify] up to the adjusted label, for a non-empty input: the query
    cannot be built (only [urlparse] can raise), or the search runs and the
    label is adjusted. *)
Lemma analyze_and_search_cases {rt : Runtime} (raw : pystr) (st : state) :
  strip raw ≠ [] →
  (∃ e st1, netloc (strip raw) = Raise e
     ∧ startswith http (strip raw) || startswith https (strip raw) = true
     ∧ logs_only st st1
     ∧ analyze_and_search raw st = (Raise e, st1))
  ∨ (∃ query text st1 results st2 adjusted,
       prepare_query_from_input raw st = (Ret (query, text), st1)
       ∧ query ≠ [] ∧ text ≠ []
       ∧ google_search query 6 st1 = (Ret results, st2)
       ∧ logs_only st st2 ∧ length results ≤ 6
       ∧ corroborate results (analyze_text text) = Ret adjusted
       ∧ analyze_and_search raw st = (Ret (text, adjusted, results), st2)).
Proof.
  intros Hraw.
  assert (∀ query text st1,
            prepare_query_from_input raw st = (Ret (query, text), st1) →
            logs_only st st1 → query ≠ [] → text ≠ [] →
            ∃ results st2 adjusted,
              google_search query 6 st1 = (Ret results, st2)
              ∧ logs_only st st2 ∧ length results ≤ 6
              ∧ corroborate results (analyze_text text) = Ret adjusted
              ∧ analyze_and_search raw st = (Ret (text, adjusted, results), st2)) as Hgo.
  { intros query text st1 Hprep Hst1 Hq Ht.
    destruct (google_search_soft query 6 st1)
      as (results & st2 & Hsearch & Hrows & Hlog & Hlen).
    destruct (analyze_text_label text) as (label & Hlabel & _).
    exists results, st2. eexists. split_and!; [done | | done | |].
    - by apply (logs_only_trans _ st1).
    - by apply corroborate_by_label.
    - unfold analyze_and_search. rewrite bind_run, Hprep. cbv zeta.
      apply truthy_true in Hq as ->. rewrite bind_run, Hsearch, bind_run.
      unfold call. by rewrite (corroborate_by_label _ _ _ Hlabel). }
  destruct (prepare_cases raw st)
    as [[? _] | [(_ & _ & Hprep) | (_ & Hurl & title & content & st1 & _ & Hst1 & Hprep)]];
    [done | |].
  - right. destruct (Hgo _ _ _ Hprep (logs_only_refl st) Hraw Hraw)
      as (results & st2 & adjusted & ?). by exists (strip raw), (strip raw), st, results, st2, adjusted.
  - destruct (netloc (strip raw)) as [domain|e] eqn:Hnet.
    + right.
      assert (or_else title (or_else domain (strip raw)) ≠ []) as Hq
        by by do 2 apply or_else_nonempty.
      assert (or_else content (or_else title (strip raw)) ≠ []) as Ht
        by by do 2 apply or_else_nonempty.
      destruct (Hgo _ _ _ Hprep Hst1 Hq Ht) as (results & st2 & adjusted & ?).
      by eexists _, _, st1, results, st2, adjusted.
    + left. exists e, st1. split_and!; [done.. |].
      unfold analyze_and_search. by rewrite bind_run, Hprep.
Qed.

Lemma corroborate_label (results : list dict) (analysis adjusted : dict) (label : pystr) :
  analysis !! "label" = Some (VStr label) →
  corroborate results analysis = Ret adjusted →
  adjusted !! "label" = Some (VStr (adjusted_label (length results) label)).
Proof.
  intros Hl. rewrite (corroborate_by_label _ _ _ Hl). intros [= <-].
  unfold adjusted_label. repeat case_match; by rewrite ?lookup_insert_eq.
Qed.

Lemma adjusted_label_few (n : nat) (label : pystr) :
  n < 3 → label ∈ [real; suspicious; fake; uncertain] →
  adjusted_label n label = suspicious ∨ adjusted_label n label = fake.
Proof.
  intros Hn%Nat.ltb_lt Hl. unfold adjusted_label. rewrite Hn.
  set_unfold. destruct Hl as [-> | [-> | [-> | [-> | []]]]]; vm_compute; tauto.
Qed.

Lemma adjusted_label_uncertain (n : nat) (label : pystr) :
  adjusted_label n label = uncertain ↔ label = uncertain ∧ 3 ≤ n.
Proof.
  unfold adjusted_label.
  destruct (Nat.ltb_spec n 3) as [Hn | Hn]; [|split; [by intros -> | by intros [-> _]]].
  split; [|lia].
  repeat case_match.
  - intros Heq; vm_compute in Heq; discriminate.
  - intros Heq; vm_compute in Heq; discriminate.
  - intros ->. by rewrite bool_decide_eq_false in *.
Qed.

(** The three ways of [verify]: no input; a URL that [urlparse] rejects;
    an answer. *)
Lemma verify_cases {rt : Runtime} (data : payload) (st : state) :
  (raw_input data = [] ∧ verify data st = (Ret NoInput, st))
  ∨ (∃ e st1,
       raw_input data ≠ []
       ∧ startswith http (raw_input data) || startswith https (raw_input data) = true
       ∧ netloc (raw_input data) = Raise e
       ∧ logs_only st st1
       ∧ verify data st =
         (Ret (InternalError e),
          {| rows := rows st1; log := log st1 ++ [LogException "verify failed" e] |}))
  ∨ (∃ query text st1 results st2 adjusted,
       raw_input data ≠ []
       ∧ prepare_query_from_input (raw_input data) st = (Ret (query, text), st1)
       ∧ query ≠ [] ∧ text ≠ []
       ∧ google_search query 6 st1 = (Ret results, st2)
       ∧ logs_only st st2 ∧ length results ≤ 6
       ∧ corroborate results (analyze_text text) = Ret adjusted
       ∧ verify data st =
         (Ret (Verified adjusted results), (save_report text adjusted st2).2)).
Proof.
  destruct (raw_input data) as [|c r] eqn:Hraw.
  - left. split; [done |]. unfold verify, try_except. cbv zeta. by rewrite Hraw.
  - right. rewrite <- Hraw.
    assert (raw_input data ≠ []) as Hne by by rewrite Hraw.
    destruct (analyze_and_search_cases (raw_input data) st) as
      [(e & st1 & Hnet & Hurl & Hst1 & Hrun)
      | (query & text & st1 & results & st2 & adjusted & Hprep & Hq & Ht & Hs & Hst2
         & Hlen & Hcorr & Hrun)];
      [by rewrite raw_input_strip | |].
    + left. rewrite raw_input_strip in Hnet, Hurl. exists e, st1.
      split_and!; [done.. |].
      unfold verify, try_except. cbv zeta.
      apply truthy_true in Hne as ->. cbn [negb]. by rewrite bind_run, Hrun.
    + right. exists query, text, st1, results, st2, adjusted.
      split_and!; [done.. |].
      apply verify_run; [by apply truthy_true | done].
Qed.

(** X8. For an input that is not blank, the query and the text to analyze
    that [prepare_query_from_input] returns are both non-empty: every
    fallback chain ends in the input itself. So [verify] always searches. *)
Theorem prepare_outputs_nonempty {rt : Runtime} (raw query text : pystr)
    (st st' : state) :
  strip raw ≠ [] →
  prepare_query_from_input raw st = (Ret (query, text), st') →
  query ≠ [] ∧ text ≠ [].
Proof.
  intros Hraw Hprep.
  destruct (prepare_cases raw st)
    as [[? _] | [(_ & _ & Hp) | (_ & _ & title & content & st1 & _ & _ & Hp)]];
    [done | |]; rewrite Hp in Hprep.
  - by injection Hprep as <- <- _.
  - destruct (netloc (strip raw)); [|done].
    injection Hprep as <- <- _. split; by do 2 apply or_else_nonempty.
Qed.

Lemma prepare_outputs_nonempty_witness :
  Cases.example_url ≠ [] ∧ Cases.example_url ≠ [].
Proof.
  apply (prepare_outputs_nonempty (rt := Sample.offline) Cases.example_url
           Cases.example_url Cases.example_url Sample.empty_state
           {| rows := [];
              log := [LogWarning "extract_text_from_url error"
                        (ExternalError "requests.get")] |}).
  - discriminate.
  - vm_compute. reflexivity.
Defined.

(** X9. A URL that cannot be fetched is analyzed as text: the URL itself is
    both the query and the text to analyze, and the one warning of the
    extractor is all that is logged. *)
Theorem prepare_unreachable_url {rt : Runtime} (raw domain : pystr) (e : exn)
    (st : state) :
  strip raw ≠ [] →
  startswith http (strip raw) || startswith https (strip raw) = true →
  fetch (strip raw) = Raise e →
  netloc (strip raw) = Ret domain →
  prepare_query_from_input raw st =
  (Ret (strip raw, strip raw),
   {| rows := rows st;
      log := log st ++ [LogWarning "extract_text_from_url error" e] |}).
Proof.
  intros Hraw Hurl Hfetch Hnet.
  destruct (prepare_cases raw st)
    as [[? _] | [(_ & Hno & _) | (_ & _ & title & content & st1 & Hex & _ & ->)]];
    [done | congruence |].
  rewrite Hnet.
  destruct (extract_run (strip raw) st)
    as (title' & content' & st1' & Hex' & Hrows & _ & Hfail).
  rewrite Hex in Hex'. injection Hex' as <- <- <-.
  destruct (Hfail e Hfetch) as (-> & -> & Hlog).
  apply truthy_true in Hraw. unfold or_else. rewrite Hraw.
  destruct st1 as [rows1 log1]. simpl in *. by subst.
Qed.

Lemma prepare_unreachable_url_witness :
  prepare_query_from_input (rt := Sample.offline) Cases.example_url Sample.empty_state =
  (Ret (Cases.example_url, Cases.example_url),
   {| rows := [];
      log := [LogWarning "extract_text_from_url error" (ExternalError "requests.get")] |}).
Proof.
  apply (prepare_unreachable_url (rt := Sample.offline) Cases.example_url []
           (ExternalError "requests.get") Sample.empty_state);
    [discriminate | reflexivity..].
Defined.

(** X10. [verify] always answers: no exception leaves it. It only appends to
    the log, and it appends at most one row to the table, none unless the
    answer is the analysis. *)
Theorem verify_always_answers {rt : Runtime} (data : payload) (st : state) :
  ∃ resp st',
    verify data st = (Ret resp, st')
    ∧ log st `prefix_of` log st'
    ∧ (rows st' = rows st ∨ ∃ r, rows st' = rows st ++ [r])
    ∧ ((∀ analysis results, resp ≠ Verified analysis results) → rows st' = rows st).
Proof.
  destruct (verify_cases data st)
    as [[_ ->] | [(e & st1 & _ & _ & _ & [Hrows Hlog] & ->)
                 | (query & text & st1 & results & st2 & adjusted & _ & _ & _ & _ & _
                    & [Hrows Hlog] & _ & _ & ->)]].
  - eexists _, _. split; [reflexivity |]. split_and!; [done | by left | done].
  - eexists _, _. split; [reflexivity |]. cbn [rows log].
    split_and!; [by etrans; [|apply prefix_app_r] | by left | done].
  - eexists _, _. split; [reflexivity |].
    rewrite save_report_run.
    destruct (adjusted !! "label") as [label|]; [cbv zeta; destruct (db_failure _ _)|];
      cbn [snd rows log].
    + split_and!; [by etrans; [|apply prefix_app_r] | by left | by rewrite Hrows].
    + split_and!; [done | right; rewrite Hrows; by eexists | ].
      intros Hresp. by destruct (Hresp adjusted results).
    + split_and!; [by etrans; [|apply prefix_app_r] | by left | by rewrite Hrows].
Qed.

Lemma verify_blank_input {rt : Runtime} (data : payload) (st : state) :
  raw_input data = [] → verify data st = (Ret NoInput, st).
Proof. intros Hraw. unfold verify, try_except. cbv zeta. by rewrite Hraw. Qed.

Lemma raw_input_url (data : payload) (url : pystr) :
  p_url data = Some url → url ≠ [] → raw_input data = strip url.
Proof.
  intros Hurl Hne. unfold raw_input, or_else. rewrite Hurl. simpl.
  by apply truthy_true in Hne as ->.
Qed.

(** X11. The answer is "no input" exactly when the submitted string is
    blank, and then nothing is searched, saved or logged. *)
Theorem verify_no_input {rt : Runtime} (data : payload) (st : state) :
  (raw_input data = [] → verify data st = (Ret NoInput, st))
  ∧ (∀ st', verify data st = (Ret NoInput, st') → raw_input data = [] ∧ st' = st).
Proof.
  destruct (verify_cases data st)
    as [[Hraw Hv] | [(e & st1 & Hraw & _ & _ & _ & Hv)
                    | (query & text & st1 & results & st2 & adjusted & Hraw & _ & _ & _
                       & _ & _ & _ & _ & Hv)]];
    rewrite Hv; split; try done.
  by intros st' [= <-].
Qed.

(** X12. A [url] member that is not empty but blank masks the [text]
    member: the answer is "no input" whatever the text is. *)
Theorem verify_blank_url_masks_text {rt : Runtime} (data : payload) (url : pystr)
    (st : state) :
  p_url data = Some url → url ≠ [] → strip url = [] →
  verify data st = (Ret NoInput, st).
Proof.
  intros Hurl Hne Hblank. apply verify_blank_input.
  by rewrite (raw_input_url _ _ Hurl Hne).
Qed.

Lemma verify_blank_url_masks_text_witness :
  verify (rt := Sample.offline) Cases.blank_url_request Sample.empty_state
  = (Ret NoInput, Sample.empty_state).
Proof.
  apply (verify_blank_url_masks_text (rt := Sample.offline) Cases.blank_url_request
           (lit "  ") Sample.empty_state); [reflexivity | discriminate | reflexivity].
Defined.

(** X13. When the [url] member is a non-empty string the [text] member is
    not read: the run is that of the request without it. *)
Theorem verify_url_precedence {rt : Runtime} (data : payload) (url : pystr) (st : state) :
  p_url data = Some url → url ≠ [] →
  verify data st = verify {| p_url := Some url; p_text := None |} st.
Proof.
  intros Hurl Hne.
  assert (raw_input data = raw_input {| p_url := Some url; p_text := None |}) as Hraw.
  { rewrite (raw_input_url _ _ Hurl Hne).
    by rewrite (raw_input_url {| p_url := Some url; p_text := None |} url). }
  unfold verify. by rewrite Hraw.
Qed.

Lemma verify_url_precedence_witness :
  verify (rt := Sample.offline) Cases.both_request Sample.empty_state
  = verify (rt := Sample.offline) {| p_url := Some Sample.neutral_text; p_text := None |} Sample.empty_state.
Proof.
  apply (verify_url_precedence (rt := Sample.offline) Cases.both_request
           Sample.neutral_text Sample.empty_state); [reflexivity | discriminate].
Defined.

(** X14. The answer is an internal error only for a URL that [urlparse]
    rejects: every other failure is absorbed before it reaches the handler.
    Nothing is saved then, and the exception is the last entry of the log. *)
Theorem verify_internal_error {rt : Runtime} (data : payload) (e : exn) (st st' : state) :
  verify data st = (Ret (InternalError e), st') →
  startswith http (raw_input data) || startswith https (raw_input data) = true
  ∧ netloc (raw_input data) = Raise e
  ∧ rows st' = rows st
  ∧ ∃ entries, log st' = log st ++ entries ++ [LogException "verify failed" e].
Proof.
  destruct (verify_cases data st)
    as [[_ ->] | [(e' & st1 & _ & Hurl & Hnet & [Hrows [entries Hlog]] & ->)
                 | (query & text & st1 & results & st2 & adjusted & _ & _ & _ & _ & _
                    & _ & _ & _ & ->)]]; [done | | done].
  intros [= <- <-]. cbn [rows log]. split_and!; [done.. |].
  exists entries. by rewrite Hlog, <- app_assoc.
Qed.

Lemma verify_internal_error_witness :
  startswith http (raw_input Cases.url_request)
  || startswith https (raw_input Cases.url_request) = true
  ∧ netloc (Runtime := Cases.unparsable) (raw_input Cases.url_request)
    = Raise (ExternalError "urlparse")
  ∧ rows {| rows := [];
            log := [ LogWarning "extract_text_from_url error" (ExternalError "requests.get");
                     LogException "verify failed" (ExternalError "urlparse") ] |}
    = rows Sample.empty_state
  ∧ ∃ entries,
      log {| rows := [];
             log := [ LogWarning "extract_text_from_url error" (ExternalError "requests.get");
                      LogException "verify failed" (ExternalError "urlparse") ] |}
      = log Sample.empty_state ++ entries
        ++ [LogException "verify failed" (ExternalError "urlparse")].
Proof.
  apply (verify_internal_error (rt := Cases.unparsable) Cases.url_request
           (ExternalError "urlparse") Sample.empty_state).
  vm_compute. reflexivity.
Defined.

(** X15. Free text (an input that does not start with http:// or https://)
    is never answered with an error: the search runs on the trimmed text,
    and the answer is the analysis of the trimmed text, adjusted for the
    number of results found, with at most 6 results. *)
Theorem verify_free_text {rt : Runtime} (data : payload) (st : state) :
  raw_input data ≠ [] →
  startswith http (raw_input data) || startswith https (raw_input data) = false →
  ∃ results st1 adjusted st',
    google_search (raw_input data) 6 st = (Ret results, st1)
    ∧ length results ≤ 6
    ∧ corroborate results (analyze_text (raw_input data)) = Ret adjusted
    ∧ verify data st = (Ret (Verified adjusted results), st').
Proof.
  intros Hraw Hfree.
  destruct (verify_cases data st)
    as [[? _] | [(e' & st1 & _ & Hurl & _)
                | (query & text & st1 & results & st2 & adjusted & _ & Hprep & _ & _ & Hs
                   & _ & Hlen & Hcorr & Hv)]]; [done | congruence |].
  destruct (prepare_cases (raw_input data) st)
    as [[? _] | [(_ & _ & Hp) | (_ & Hurl & _)]];
    rewrite ?raw_input_strip in *; [done | | congruence].
  rewrite Hp in Hprep. injection Hprep as <- <- <-.
  by eexists results, st2, adjusted, _.
Qed.

Lemma verify_free_text_witness :
  ∃ results st1 adjusted st',
    google_search (rt := Sample.offline) (raw_input Sample.neutral_request) 6
      Sample.empty_state = (Ret results, st1)
    ∧ length results ≤ 6
    ∧ corroborate results (analyze_text (rt := Sample.offline)
                             (raw_input Sample.neutral_request)) = Ret adjusted
    ∧ verify (rt := Sample.offline) Sample.neutral_request Sample.empty_state
      = (Ret (Verified adjusted results), st').
Proof.
  apply (verify_free_text (rt := Sample.offline) Sample.neutral_request
           Sample.empty_state); [discriminate | reflexivity].
Defined.

(** X16. The row saved with an answer carries the label of the answer, the
    adjusted one, and the first 2000 characters of the analyzed text; when
    the session fails no row is saved and the answer is the same. *)
Theorem verify_stored_label {rt : Runtime} (data : payload) (analysis : dict)
    (results : list dict) (st st' : state) :
  verify data st = (Ret (Verified analysis results), st') →
  ∃ query text st1 label,
    prepare_query_from_input (raw_input data) st = (Ret (query, text), st1)
    ∧ analysis !! "label" = Some (VStr label)
    ∧ (rows st' = rows st ++ [report_of text (VStr label)]
       ∨ (rows st' = rows st
          ∧ ∃ e, last (log st') = Some (LogWarning "DB save failed" e))).
Proof.
  destruct (verify_cases data st)
    as [[_ ->] | [(e' & st1 & _ & _ & _ & _ & ->)
                 | (query & text & st1 & results' & st2 & adjusted & _ & Hprep & _ & _ & _
                    & [Hrows _] & _ & Hcorr & ->)]]; [done.. |].
  intros [= <- <- <-].
  destruct (analyze_text_label text) as (label & Hlabel & _).
  pose proof (corroborate_label _ _ _ _ Hlabel Hcorr) as Hadj.
  exists query, text, st1. eexists. split_and!; [done.. |].
  rewrite save_report_run, Hadj. cbv zeta.
  destruct (db_failure _ _) as [e|]; cbn [snd rows log].
  - right. split; [done |]. exists e. apply last_snoc.
  - left. by rewrite Hrows.
Qed.

Lemma verify_stored_label_witness :
  ∃ query text st1 label,
    prepare_query_from_input (rt := Sample.offline) (raw_input Sample.neutral_request)
      Sample.empty_state = (Ret (query, text), st1)
    ∧ (<["label" := VStr suspicious]>
         (analyze_text (rt := Sample.offline) Sample.neutral_text) : dict) !! "label"
      = Some (VStr label)
    ∧ (rows {| rows := [report_of Sample.neutral_text (VStr suspicious)];
               log := [LogWarning "google_search_scrape error"
                         (ExternalError "requests.get")] |}
       = rows Sample.empty_state ++ [report_of text (VStr label)]
       ∨ (rows {| rows := [report_of Sample.neutral_text (VStr suspicious)];
                  log := [LogWarning "google_search_scrape error"
                            (ExternalError "requests.get")] |}
          = rows Sample.empty_state
          ∧ ∃ e, last (log {| rows := [report_of Sample.neutral_text (VStr suspicious)];
                              log := [LogWarning "google_search_scrape error"
                                        (ExternalError "requests.get")] |})
                 = Some (LogWarning "DB save failed" e))).
Proof.
  apply (verify_stored_label (rt := Sample.offline) Sample.neutral_request _ []
           Sample.empty_state).
  vm_compute. reflexivity.
Defined.

(** The label of an answer, from the label of the analysis. *)
Lemma verify_label {rt : Runtime} (data : payload) (analysis : dict)
    (results : list dict) (st st' : state) :
  verify data st = (Ret (Verified analysis results), st') →
  ∃ query text st1 label,
    prepare_query_from_input (raw_input data) st = (Ret (query, text), st1)
    ∧ analyze_text text !! "label" = Some (VStr label)
    ∧ label ∈ [real; suspicious; fake; uncertain]
    ∧ (label = uncertain ↔ length (strip text) < 10)
    ∧ corroborate results (analyze_text text) = Ret analysis
    ∧ analysis !! "label" = Some (VStr (adjusted_label (length results) label)).
Proof.
  destruct (verify_cases data st)
    as [[_ ->] | [(e' & st1 & _ & _ & _ & _ & ->)
                 | (query & text & st1 & results' & st2 & adjusted & _ & Hprep & _ & _ & _
                    & _ & _ & Hcorr & ->)]]; [done.. |].
  intros [= <- <- <-].
  destruct (analyze_text_label text) as (label & Hlabel & Hin & Hunc).
  exists query, text, st1, label. split_and!; [done.. |].
  by apply (corroborate_label _ _ _ _ Hlabel Hcorr).
Qed.

(** X17. An answer with fewer than 3 search results is never labelled
    'real' or 'uncertain': its label is 'suspicious' or 'fake'. *)
Theorem verify_few_results_label {rt : Runtime} (data : payload) (analysis : dict)
    (results : list dict) (st st' : state) :
  verify data st = (Ret (Verified analysis results), st') →
  length results < 3 →
  analysis !! "label" = Some (VStr suspicious) ∨ analysis !! "label" = Some (VStr fake).
Proof.
  intros (query & text & st1 & label & _ & _ & Hin & _ & _ & ->)%verify_label Hfew.
  destruct (adjusted_label_few _ _ Hfew Hin) as [-> | ->]; auto.
Qed.

Lemma verify_few_results_label_witness :
  (<["label" := VStr fake]> degenerate : dict) !! "label" = Some (VStr suspicious)
  ∨ (<["label" := VStr fake]> degenerate : dict) !! "label" = Some (VStr fake).
Proof.
  apply (verify_few_results_label (rt := Sample.offline) Cases.short_request
           (<["label" := VStr fake]> degenerate) []
           Sample.empty_state
           {| rows := [report_of (lit "hi there") (VStr fake)];
              log := [LogWarning "google_search_scrape error"
                        (ExternalError "requests.get")] |}).
  - vm_compute. reflexivity.
  - simpl. lia.
Defined.

(** X18. An answer is labelled 'uncertain' exactly when the analyzed text
    has fewer than 10 characters once trimmed and at least 3 search results
    were found; the row saved then carries 'uncertain' too. *)
Theorem verify_uncertain_iff {rt : Runtime} (data : payload) (analysis : dict)
    (results : list dict) (st st' : state) :
  verify data st = (Ret (Verified analysis results), st') →
  ∃ query text st1,
    prepare_query_from_input (raw_input data) st = (Ret (query, text), st1)
    ∧ (analysis !! "label" = Some (VStr uncertain)
       ↔ length (strip text) < 10 ∧ 3 ≤ length results).
Proof.
  intros (query & text & st1 & label & Hprep & _ & _ & Hunc & _ & Hl)%verify_label.
  exists query, text, st1. split; [done |]. rewrite Hl, <- Hunc.
  rewrite <- adjusted_label_uncertain. split; [by intros [=] | by intros ->].
Qed.

Lemma verify_uncertain_iff_witness :
  ∃ query text st1,
    prepare_query_from_input (rt := Sample.answering (replicate 3 Sample.full_result))
      (raw_input Cases.short_request) Sample.empty_state = (Ret (query, text), st1)
    ∧ (degenerate !! "label" = Some (VStr uncertain)
       ↔ length (strip text) < 10
         ∧ 3 ≤ length (replicate 3
                         ({[ "title" := VStr (lit "Title");
                             "url" := VStr (lit "http://example.org/");
                             "snippet" := VStr (lit "Snippet") ]} : dict))).
Proof.
  apply (verify_uncertain_iff (rt := Sample.answering (replicate 3 Sample.full_result))
           Cases.short_request degenerate _ Sample.empty_state
           {| rows := [report_of (lit "hi there") (VStr uncertain)]; log := [] |}).
  vm_compute. reflexivity.
Defined.

(** X19. The adjustment touches the label only: tokens, sentiment, preview
    and indicators of an answer are those of the analysis of the text. *)
Theorem verify_keeps_other_fields {rt : Runtime} (data : payload) (analysis : dict)
    (results : list dict) (st st' : state) :
  verify data st = (Ret (Verified analysis results), st') →
  ∃ query text st1,
    prepare_query_from_input (raw_input data) st = (Ret (query, text), st1)
    ∧ ∀ k : string, k ≠ "label" → analysis !! k = analyze_text text !! k.
Proof.
  intros (query & text & st1 & label & Hprep & _ & _ & _ & Hcorr & _)%verify_label.
  exists query, text, st1. split; [done |].
  intros k Hk. by apply (corroborate_other_keys results).
Qed.

Lemma verify_keeps_other_fields_witness :
  ∃ query text st1,
    prepare_query_from_input (rt := Sample.offline) (raw_input Cases.short_request)
      Sample.empty_state = (Ret (query, text), st1)
    ∧ ∀ k : string, k ≠ "label" →
        (<["label" := VStr fake]> degenerate : dict) !! k
        = analyze_text (rt := Sample.offline) text !! k.
Proof.
  apply (verify_keeps_other_fields (rt := Sample.offline) Cases.short_request
           (<["label" := VStr fake]> degenerate) []
           Sample.empty_state
           {| rows := [report_of (lit "hi there") (VStr fake)];
              log := [LogWarning "google_search_scrape error"
                        (ExternalError "requests.get")] |}).
  vm_compute. reflexivity.
Defined.

(** ** The analyzer, beyond the bounds *)

(** X20. Six exclamation or question marks make a text 'fake' whatever its
    words and its sentiment are (for a text of at least 10 characters once
    trimmed): every two of them count as one indicator. *)
Theorem analyze_punctuation_fake {rt : Runtime} (text : pystr) :
  10 ≤ length (strip text) →
  6 ≤ count bang text + count qmark text →
  analyze_text text !! "label" = Some (VStr fake).
Proof.
  intros Hlen Hmarks. rewrite analyze_text_long by done.
  rewrite lookup_insert_ne, lookup_insert_ne, lookup_insert_eq by done.
  rewrite classify_cases. cbv zeta.
  assert (3 ≤ total_indicators text) as Htotal.
  { unfold total_indicators, punct_indicators.
    assert (3 ≤ (count bang text + count qmark text) `div` 2) as Hpairs
      by (apply Nat.div_le_lower_bound; [done | simpl; lia]).
    revert Hpairs.
    generalize ((count bang text + count qmark text) `div` 2),
               (indicator_count (tokenize text)), (caps_indicators text).
    intros; lia. }
  by apply Nat.leb_le in Htotal as ->.
Qed.

Lemma analyze_punctuation_fake_witness :
  analyze_text (rt := Sample.offline) Sample.breaking_text !! "label" = Some (VStr fake).
Proof.
  apply (analyze_punctuation_fake (rt := Sample.offline) Sample.breaking_text);
    vm_compute; lia.
Defined.

Lemma newline_not_in_replace (s : pystr) : newline ∉ replace newline space s.
Proof.
  unfold replace. intros (c & Hc & _)%list_elem_of_fmap.
  by case_decide.
Qed.

(** X21. The preview of every result is a single line: it holds no newline
    character. *)
Theorem preview_single_line {rt : Runtime} (text : pystr) :
  ∃ preview,
    analyze_text text !! "preview" = Some (VStr preview) ∧ newline ∉ preview.
Proof.
  destruct (Nat.lt_ge_cases (length (strip text)) 10) as [Hlen | Hlen].
  - rewrite analyze_text_short by done. exists []. split; [done | apply not_elem_of_nil].
  - rewrite analyze_text_long by done. exists (preview_of text). split; [done |].
    unfold preview_of. rewrite not_elem_of_app. split; [apply newline_not_in_replace |].
    case_match; [|apply not_elem_of_nil].
    by intros [=]%list_elem_of_singleton.
Qed.

Lemma replace_absent (a b : N) (s : pystr) : a ∉ s → replace a b s = s.
Proof.
  unfold replace. induction s as [|c s IH]; [done |].
  intros [Hc Hs]%not_elem_of_cons. simpl.
  rewrite decide_False by done. f_equal. by apply IH.
Qed.

(** X22. For a text of 10 to 300 characters once trimmed and without a
    newline in it, the preview is the trimmed text itself. *)
Theorem preview_round_trip {rt : Runtime} (text : pystr) :
  10 ≤ length (strip text) → length (strip text) ≤ 300 →
  newline ∉ strip text →
  analyze_text text !! "preview" = Some (VStr (strip text)).
Proof.
  intros Hlen Hmax Hnl. rewrite analyze_text_long by done.
  rewrite !lookup_insert_ne, lookup_insert_eq by done.
  do 2 f_equal. unfold preview_of.
  replace (300 <? length (strip text)) with false by (symmetry; apply Nat.ltb_ge; lia).
  rewrite app_nil_r, take_ge by lia. by apply replace_absent.
Qed.

Lemma preview_round_trip_witness :
  analyze_text (rt := Sample.offline) Sample.neutral_text !! "preview"
  = Some (VStr (strip Sample.neutral_text)).
Proof.
  apply (preview_round_trip (rt := Sample.offline) Sample.neutral_text);
    [vm_compute; lia | vm_compute; lia |].
  apply (bool_decide_unpack _). vm_compute. exact I.
Defined.

(** X23. The label and the indicator count of a result agree: 'real' comes
    with no indicator at all, and 3 indicators or more come with 'fake'. *)
Theorem analyze_label_indicators {rt : Runtime} (text : pystr) (n : Z) (label : pystr) :
  analyze_text text !! "indicators" = Some (VInt n) →
  analyze_text text !! "label" = Some (VStr label) →
  (0 ≤ n)%Z ∧ (label = real → n = 0%Z) ∧ ((3 ≤ n)%Z → label = fake).
Proof.
  destruct (Nat.lt_ge_cases (length (strip text)) 10) as [Hlen | Hlen].
  { by rewrite analyze_text_short by done. }
  rewrite analyze_text_long by done. intros Hn Hl.
  rewrite !lookup_insert_ne, lookup_singleton_eq in Hn by done.
  rewrite !lookup_insert_ne, lookup_insert_eq in Hl by done.
  injection Hn as <-. injection Hl as <-.
  rewrite classify_cases. cbv zeta.
  pose proof fake_ne_real. pose proof suspicious_ne_real.
  destruct (Nat.leb_spec 3 (total_indicators text));
    destruct (Nat.leb_spec 1 (total_indicators text));
    destruct (polarity_of text <? -0.25)%float, (0.5 <? polarity_of text)%float,
             (0.15 <? abs (polarity_of text))%float;
    cbv beta iota delta [orb]; split_and!; intros; try done; lia.
Qed.

Lemma analyze_label_indicators_witness :
  (0 ≤ 8)%Z ∧ (fake = real → 8%Z = 0%Z) ∧ ((3 ≤ 8)%Z → fake = fake).
Proof.
  apply (analyze_label_indicators (rt := Sample.offline) Sample.breaking_text 8 fake);
    vm_compute; reflexivity.
Defined.

(** ** Configuration *)

Lemma startswith_spec (p s : pystr) :
  startswith p s = true ↔ ∃ rest, s = p ++ rest.
Proof.
  revert s. induction p as [|a p IH]; intros s; simpl.
  - split; [by exists s | done].
  - destruct s as [|b s]; [split; [done | by intros [? [=]]] |].
    rewrite andb_true_iff, bool_decide_eq_true, IH. split.
    + intros [-> [rest ->]]. by exists rest.
    + intros [rest [= -> ->]]. split; [done | by exists rest].
Qed.

Lemma replace_first_prefix (old new rest : pystr) :
  replace_first old new (old ++ rest) = new ++ rest.
Proof.
  assert (startswith old (old ++ rest) = true) as Hpre
    by (apply startswith_spec; by exists rest).
  destruct (old ++ rest) as [|c s] eqn:Heq; simpl; rewrite Hpre; rewrite <- Heq;
    by rewrite drop_app_length.
Qed.

(** X24. The database URI is never empty and never starts with
    postgres://: a [DATABASE_URL] of that scheme has it rewritten to
    postgresql:// with the rest untouched, any other non-empty value is
    taken as it is, and an unset or empty one gives the SQLite file. *)
Theorem database_uri_scheme (database_url : option pystr) :
  database_uri database_url ≠ []
  ∧ startswith postgres_scheme (database_uri database_url) = false
  ∧ (∀ rest, database_url = Some (postgres_scheme ++ rest) →
       database_uri database_url = postgresql_scheme ++ rest)
  ∧ (∀ url, database_url = Some url → url ≠ [] →
       startswith postgres_scheme url = false → database_uri database_url = url)
  ∧ (database_url = None ∨ database_url = Some [] →
       database_uri database_url = sqlite_uri).
Proof.
  assert (∀ rest, database_uri (Some (postgres_scheme ++ rest))
                  = postgresql_scheme ++ rest) as Hpg.
  { intros rest. unfold database_uri.
    replace (startswith postgres_scheme (postgres_scheme ++ rest)) with true
      by (symmetry; apply startswith_spec; by exists rest).
    by rewrite replace_first_prefix. }
  split_and!.
  - destruct database_url as [url|]; [|done]. unfold database_uri.
    destruct (truthy url) eqn:Hurl; [|done].
    destruct (startswith postgres_scheme url) eqn:Hpre; [|by apply truthy_true].
    apply startswith_spec in Hpre as [rest ->]. by rewrite replace_first_prefix.
  - destruct database_url as [url|]; [|done]. unfold database_uri.
    destruct (truthy url) eqn:Hurl; [|done].
    destruct (startswith postgres_scheme url) eqn:Hpre; [|done].
    apply startswith_spec in Hpre as [rest ->]. by rewrite replace_first_prefix.
  - by intros rest ->.
  - intros url -> Hne Hpre. unfold database_uri.
    apply truthy_true in Hne as ->. by rewrite Hpre.
  - by intros [-> | ->].
Qed.

Example database_uri_render :
  database_uri (Some (lit "postgres://user:pw@host/db"))
  = lit "postgresql://user:pw@host/db".
Proof. vm_compute. reflexivity. Qed.

(** ** Statistics *)

Lemma count_label_app (l : pystr) (t1 t2 : list report) :
  count_label l (t1 ++ t2) = count_label l t1 + count_label l t2.
Proof. unfold count_label. by rewrite filter_app, length_app. Qed.

Lemma count_label_singleton (l label : pystr) (text : pystr) :
  count_label l [report_of text (VStr label)] = if bool_decide (l = label) then 1 else 0.
Proof.
  unfold count_label. rewrite filter_cons, filter_nil. cbn [report_of rep_label is_str].
  destruct (decide (l = label)) as [-> | Hne].
  - rewrite (bool_decide_true (label = label)) by done.
    by rewrite decide_True by done.
  - rewrite (bool_decide_false (l = label)) by done.
    rewrite decide_False; [done |]. rewrite bool_decide_eq_true. congruence.
Qed.

Lemma count_label_one (l : pystr) (r : report) :
  count_label l [r] = if is_str l (rep_label r) then 1 else 0.
Proof.
  unfold count_label. rewrite filter_cons, filter_nil.
  destruct (is_str l (rep_label r)); [by rewrite decide_True | by rewrite decide_False].
Qed.

(** A label is counted at most once, and once exactly when it is one of
    the three. *)
Lemma known_label_once (v : pyval) :
  let once (l : pystr) := if is_str l v then 1 else 0 in
  once real + once suspicious + once fake ≤ 1
  ∧ (once real + once suspicious + once fake = 1
     ↔ v ∈ [VStr real; VStr suspicious; VStr fake]).
Proof.
  cbv zeta. rewrite !elem_of_cons, elem_of_nil.
  destruct v as [| | |s|]; simpl; try (split; [lia | split; [lia | intuition discriminate]]).
  pose proof fake_ne_real. pose proof suspicious_ne_real. pose proof fake_ne_suspicious.
  destruct (decide (s = real)) as [-> | Hreal];
    [|destruct (decide (s = suspicious)) as [-> | Hsusp];
      [|destruct (decide (s = fake)) as [-> | Hfake]]].
  - split; [vm_compute; lia | split; [auto | intros _; vm_compute; lia]].
  - split; [vm_compute; lia | split; [auto | intros _; vm_compute; lia]].
  - split; [vm_compute; lia | split; [auto | intros _; vm_compute; lia]].
  - rewrite !bool_decide_false by done. simpl.
    split; [lia | split; [lia | intros [[=] | [[=] | [[=] | []]]]; done]].
Qed.

(** The three counts against the size of the table. *)
Lemma count_labels_total (table : list report) :
  count_label real table + count_label suspicious table + count_label fake table
  ≤ length table
  ∧ (count_label real table + count_label suspicious table + count_label fake table
     = length table
     ↔ Forall (λ r, rep_label r ∈ [VStr real; VStr suspicious; VStr fake]) table).
Proof.
  induction table as [|r table [IHle IHeq]]; [by split |].
  change (r :: table) with ([r] ++ table).
  rewrite !count_label_app, length_app, Forall_app, Forall_singleton.
  rewrite !count_label_one.
  destruct (known_label_once (rep_label r)) as [Hle Heq]. cbv zeta in Hle, Heq.
  cbn [length]. split; [lia |]. rewrite <- IHeq, <- Heq. lia.
Qed.

(** X25. [stats] reports, under total_reports, the size of the table, and
    under real_count, suspicious_count and fake_count the number of rows
    whose label is 'real', 'suspicious' and 'fake' respectively. The three
    sum to at most the total, and to the total exactly when no row carries
    another label (an 'uncertain' row is counted in the total only). A
    failing session gives the error answer and one log entry; the table is
    only read. *)
Theorem stats_counts (st : state) :
  (∃ body,
     stats None st = (Ret (Stats body), st)
     ∧ dom body
       = ({[ "total_reports"; "real_count"; "suspicious_count"; "fake_count" ]}
          : gset string)
     ∧ body !! "total_reports" = Some (VInt (Z.of_nat (length (rows st))))
     ∧ body !! "real_count" = Some (VInt (Z.of_nat (count_label real (rows st))))
     ∧ body !! "suspicious_count"
       = Some (VInt (Z.of_nat (count_label suspicious (rows st))))
     ∧ body !! "fake_count" = Some (VInt (Z.of_nat (count_label fake (rows st)))))
  ∧ (∀ l,
       count_label l (rows st)
       = length (filter (λ r, is_str l (rep_label r) = true) (rows st))
       ∧ ∀ r, r ∈ filter (λ r, is_str l (rep_label r) = true) (rows st)
              ↔ r ∈ rows st ∧ rep_label r = VStr l)
  ∧ count_label real (rows st) + count_label suspicious (rows st)
    + count_label fake (rows st) ≤ length (rows st)
  ∧ (count_label real (rows st) + count_label suspicious (rows st)
     + count_label fake (rows st) = length (rows st)
     ↔ Forall (λ r, rep_label r ∈ [VStr real; VStr suspicious; VStr fake]) (rows st))
  ∧ ∀ e, stats (Some e) st =
         (Ret StatsFailed,
          {| rows := rows st; log := log st ++ [LogException "stats failed" e] |}).
Proof.
  split_and!; [| | apply count_labels_total | apply count_labels_total | done].
  - eexists. split; [reflexivity |]. split_and!; [| done..].
    rewrite !dom_insert_L, dom_singleton_L. by rewrite !(assoc_L (∪)).
  - intros l. split; [done |].
    intros r. rewrite list_elem_of_filter, is_str_spec. tauto.
Qed.

(** A table with an 'uncertain' row: the counts fall short of the total. *)
Example stats_uncertain_row :
  stats None {| rows := [ report_of (lit "hi there") (VStr uncertain);
                          report_of Sample.neutral_text (VStr real) ];
                log := [] |}
  = (Ret (Stats {[ "total_reports" := VInt 2; "real_count" := VInt 1;
                   "suspicious_count" := VInt 0; "fake_count" := VInt 0 ]}),
     {| rows := [ report_of (lit "hi there") (VStr uncertain);
                  report_of Sample.neutral_text (VStr real) ];
        log := [] |}).
Proof. vm_compute. reflexivity. Qed.

Lemma verify_rows {rt : Runtime} (data : payload) (analysis : dict)
    (results : list dict) (st st' : state) :
  verify data st = (Ret (Verified analysis results), st') →
  ∃ text label,
    analysis !! "label" = Some (VStr label)
    ∧ (rows st' = rows st ++ [report_of text (VStr label)] ∨ rows st' = rows st).
Proof.
  destruct (verify_cases data st)
    as [[_ ->] | [(e' & st1 & _ & _ & _ & _ & ->)
                 | (query & text & st1 & results' & st2 & adjusted & _ & Hprep & _ & _ & _
                    & [Hrows _] & _ & Hcorr & ->)]]; [done.. |].
  intros [= <- <- <-].
  destruct (analyze_text_label text) as (label & Hlabel & _).
  pose proof (corroborate_label _ _ _ _ Hlabel Hcorr) as Hadj.
  exists text. eexists. split; [done |].
  rewrite save_report_run, Hadj. cbv zeta.
  destruct (db_failure _ _) as [e|]; cbn [snd rows log]; [by right | left].
  by rewrite Hrows.
Qed.

(** X26. After an answer that saved its row, [stats] sees one report more,
    and one more of the answer's label and of no other. *)
Theorem verify_then_stats {rt : Runtime} (data : payload) (analysis : dict)
    (results : list dict) (st st' : state) :
  verify data st = (Ret (Verified analysis results), st') →
  rows st' ≠ rows st →
  ∃ label,
    analysis !! "label" = Some (VStr label)
    ∧ length (rows st') = S (length (rows st))
    ∧ ∀ l, count_label l (rows st')
           = count_label l (rows st) + (if bool_decide (l = label) then 1 else 0).
Proof.
  intros (text & label & Hlabel & [Hrows | Hrows])%verify_rows Hsaved; [|done].
  exists label. split; [done |]. rewrite Hrows. split.
  - rewrite length_app. simpl. lia.
  - intros l. by rewrite count_label_app, count_label_singleton.
Qed.

Lemma verify_then_stats_witness :
  ∃ label,
    (<["label" := VStr suspicious]>
       (analyze_text (rt := Sample.offline) Sample.neutral_text) : dict) !! "label"
    = Some (VStr label)
    ∧ length (rows {| rows := [report_of Sample.neutral_text (VStr suspicious)];
                      log := [LogWarning "google_search_scrape error"
                                (ExternalError "requests.get")] |})
      = S (length (rows Sample.empty_state))
    ∧ ∀ l, count_label l
             (rows {| rows := [report_of Sample.neutral_text (VStr suspicious)];
                      log := [LogWarning "google_search_scrape error"
                                (ExternalError "requests.get")] |})
           = count_label l (rows Sample.empty_state)
             + (if bool_decide (l = label) then 1 else 0).
Proof.
  apply (verify_then_stats (rt := Sample.offline) Sample.neutral_request _ []
           Sample.empty_state).
  - vm_compute. reflexivity.
  - discriminate.
Defined.
